(** * ttfw_idf: test registration and performance thresholds

    A shallow embedding of [tools/ci/python_packages/ttfw_idf/__init__.py]:
    the case identifier formatter, the list normalizer, the
    target / CI-target validator, the three registration decorators and the
    performance threshold checker.

    Conventions of the embedding.
    - Python 3 semantics.  Strings are ASCII texts: [upper], the regular
      expression classes and [float] are modelled on code points below 128,
      and a code point from 128 on is an ordinary character (no case, no
      space, no digit).
    - A Python object is a [value]; a call that can raise returns a
      [result], and the bind of [result] is the propagation of the
      exception.
    - [**kwargs] and the [case_info] dictionary are [gmap string value];
      a Python [set] of strings is a [gset string].
    - Floating point numbers are IEEE 754 binary64 values, as [spec_float]
      of the Standard Library, compared with [SFleb].
    - The file system, the SDK path and [TinyFW.test_method] are outside
      this module: they are parameters of the definitions that use them.
      Reading a file gives its text or raises: [IOError] when the file
      cannot be opened, another exception (such as [UnicodeDecodeError])
      when what it holds cannot be read as text.
    - A metric name is plain when it is made of letters, digits and
      underscores.  The search for a definition line is modelled for plain
      names, for which the pattern built from the name matches the name
      itself; the properties of the search are stated for such names. *)

From Stdlib Require Import ZArith List Ascii String DecimalString.
From Stdlib Require Import Floats.SpecFloat.
From stdpp Require Import base option list gmap strings.

Local Open Scope list_scope.
Local Open Scope string_scope.

(** ** Python objects and exceptions *)

(** The objects that reach this module: [None], strings, lists of strings
    (chip lists), integers, booleans, class objects (the application
    classes, by qualified name) and the chip to driver-class dictionary
    (keys with the name of the class they map to, in insertion order). *)
Inductive value : Type :=
| VNone
| VStr (s : string)
| VList (l : list string)
| VInt (z : Z)
| VBool (b : bool)
| VClass (qualname : string)
| VDict (d : list (string * string)).

Global Instance value_eq_dec : EqDecision value.
Proof. solve_decision. Defined.

(** A piece of a formatted message: literal text, or a float argument of
    [str.format] kept as the number it is. *)
Inductive piece : Type :=
| Text (s : string)
| Num (x : spec_float).

Inductive exn : Type :=
| ValueError (msg : string)
| TypeError (msg : string)
| KeyError (key : string)
| IOError
| AttributeError
| UnicodeDecodeError
| AssertionError (msg : list piece).

Inductive result (A : Type) : Type :=
| Ok (a : A)
| Raise (e : exn).

Arguments Ok {A} a.
Arguments Raise {A} e.

(** Sequencing: an exception raised by the first computation ends the
    whole one.  With this instance [x ← r; k] is stdpp's notation. *)
Global Instance result_bind : MBind result := fun A B k r =>
  match r with
  | Ok a => k a
  | Raise e => Raise e
  end.

(** ** Strings *)

Definition dquote : ascii := ascii_of_nat 34.
Definition squote : ascii := ascii_of_nat 39.
Definition backslash : ascii := ascii_of_nat 92.

Fixpoint string_map (f : ascii -> ascii) (s : string) : string :=
  match s with
  | EmptyString => EmptyString
  | String c s' => String (f c) (string_map f s')
  end.

Fixpoint string_mem (c : ascii) (s : string) : bool :=
  match s with
  | EmptyString => false
  | String c' s' => Ascii.eqb c c' || string_mem c s'
  end.

(** [c.upper()] on an ASCII character. *)
Definition upper_ascii (c : ascii) : ascii :=
  if (Ascii.leb "a" c && Ascii.leb c "z")%bool
  then ascii_of_N (N_of_ascii c - 32)
  else c.

(** [s.upper()] *)
Definition upper (s : string) : string := string_map upper_ascii s.

(** The characters of a string, each as a string of length one: what
    iterating over a Python string yields. *)
Fixpoint chars (s : string) : list string :=
  match s with
  | EmptyString => []
  | String c s' => String c EmptyString :: chars s'
  end.

(** ** Printing: [str(x)], as used by [str.format] for a [{}] field *)

Definition hex_digit (n : N) : ascii :=
  if (n <? 10)%N then ascii_of_N (48 + n) else ascii_of_N (87 + n).

Definition repr_char (q c : ascii) : string :=
  let n := N_of_ascii c in
  if (Ascii.eqb c q || Ascii.eqb c backslash)%bool then String backslash (String c EmptyString)
  else if (n =? 9)%N then String backslash "t"
  else if (n =? 10)%N then String backslash "n"
  else if (n =? 13)%N then String backslash "r"
  else if ((n <? 32) || (n =? 127))%N%bool
       then String backslash (String "x" (String (hex_digit (n / 16)) (String (hex_digit (n mod 16)) EmptyString)))
  else String c EmptyString.

Fixpoint repr_body (q : ascii) (s : string) : string :=
  match s with
  | EmptyString => EmptyString
  | String c s' => repr_char q c ++ repr_body q s'
  end.

(** [repr(s)] of a string: single quotes, unless the string holds a single
    quote and no double quote. *)
Definition repr_str (s : string) : string :=
  let q := if (string_mem squote s && negb (string_mem dquote s))%bool then dquote else squote in
  String q (repr_body q s ++ String q EmptyString).

Definition repr_class (qualname : string) : string :=
  "<class '" ++ qualname ++ "'>".

Definition py_str (v : value) : string :=
  match v with
  | VNone => "None"
  | VStr s => s
  | VList l => "[" ++ String.concat ", " (map repr_str l) ++ "]"
  | VInt z => NilZero.string_of_int (Z.to_int z)
  | VBool b => if b then "True" else "False"
  | VClass c => repr_class c
  | VDict d =>
      "{" ++ String.concat ", " (map (fun kv => repr_str (fst kv) ++ ": " ++ repr_class (snd kv)) d) ++ "}"
  end.

(** ** Case identifier formatter *)

(** [def format_case_id(chip, case_name): return "{}.{}".format(chip, case_name)] *)
Definition format_case_id (chip case_name : value) : string :=
  py_str chip ++ "." ++ py_str case_name.

(** ** List normalizer *)

(** Truth value of an object, as tested by [not text]. *)
Definition truthy (v : value) : bool :=
  match v with
  | VNone => false
  | VStr s => negb (String.eqb s EmptyString)
  | VList l => match l with [] => false | _ => true end
  | VInt z => negb (z =? 0)%Z
  | VBool b => b
  | VClass _ => true
  | VDict d => match d with [] => false | _ => true end
  end.

Definition type_name (v : value) : string :=
  match v with
  | VNone => "NoneType"
  | VStr _ => "str"
  | VList _ => "list"
  | VInt _ => "int"
  | VBool _ => "bool"
  | VClass _ => "type"
  | VDict _ => "dict"
  end.

Definition not_iterable (v : value) : exn :=
  TypeError ("'" ++ type_name v ++ "' object is not iterable").

(** The items that iterating over an object yields; strings yield their
    characters and dictionaries their keys. *)
Definition py_iter (v : value) : result (list string) :=
  match v with
  | VStr s => Ok (chars s)
  | VList l => Ok l
  | VDict d => Ok (map fst d)
  | _ => Raise (not_iterable v)
  end.

(** [[
def upper_list(text):
    if not text:
        return text
    if isinstance(text, string_type):
        res = text.upper()
    else:
        res = [item.upper() for item in text]
    return res
]] *)
Definition upper_list (text : value) : result value :=
  if negb (truthy text) then Ok text
  else match text with
       | VStr s => Ok (VStr (upper s))
       | _ => items ← py_iter text; Ok (VList (map upper items))
       end.

(** [set(x)] *)
Definition py_set (v : value) : result (gset string) :=
  items ← py_iter v; Ok (list_to_set items).

(** ** Target / CI-target validator *)

(** [kwargs.get(key, default)] *)
Definition kwargs_get (kwargs : gmap string value) (key : string) (dflt : value) : value :=
  default dflt (kwargs !! key).

(** [[
def ci_target_check(func):
    @functools.wraps(func)
    def wrapper( **kwargs):
        target = upper_list(kwargs.get('target', []))
        ci_target = upper_list(kwargs.get('ci_target', []))
        if not set(ci_target).issubset(set(target)):
            raise ValueError('ci_target must be a subset of target')

        return func( **kwargs)

    return wrapper
]]
    [ci_target_check func] is the wrapper. *)
Definition ci_target_check {A : Type} (func : gmap string value -> result A)
    (kwargs : gmap string value) : result A :=
  target ← upper_list (kwargs_get kwargs "target" (VList []));
  ci_target ← upper_list (kwargs_get kwargs "ci_target" (VList []));
  ci_set ← py_set ci_target;
  target_set ← py_set target;
  if negb (bool_decide (ci_set ⊆ target_set))
  then Raise (ValueError "ci_target must be a subset of target")
  else func kwargs.

(** ** Registration decorators *)

(** [[
TARGET_DUT_CLS_DICT = {
    'ESP32': ESP32DUT,
    'ESP32S2': ESP32S2DUT,
}
]] *)
Definition TARGET_DUT_CLS_DICT : value :=
  VDict [("ESP32", "ttfw_idf.IDFDUT.ESP32DUT"); ("ESP32S2", "ttfw_idf.IDFDUT.ESP32S2DUT")].

Definition Example : value := VClass "ttfw_idf.IDFApp.Example".
Definition UT : value := VClass "ttfw_idf.IDFApp.UT".
Definition TestApp : value := VClass "ttfw_idf.IDFApp.TestApp".

(** The rest of [**kwargs] once the named parameters are bound. *)
Definition kwargs_rest (names : list string) (kwargs : gmap string value) : gmap string value :=
  foldr delete kwargs names.

(** A call [f(k1=v1, ..., **kwargs)]: a keyword given twice is a
    [TypeError]; otherwise the callee receives all of them. *)
Fixpoint call_kwargs (explicit : list (string * value)) (kwargs : gmap string value)
    : result (gmap string value) :=
  match explicit with
  | [] => Ok kwargs
  | (k, v) :: rest =>
      match kwargs !! k with
      | Some _ => Raise (TypeError ("test_method() got multiple values for keyword argument '" ++ k ++ "'"))
      | None => args ← call_kwargs rest kwargs; Ok (<[k := v]> args)
      end
  end.

(** [d[key]] *)
Definition getitem (d : gmap string value) (key : string) : result value :=
  match d !! key with
  | Some v => Ok v
  | None => Raise (KeyError key)
  end.

Section Registration.

(** The user's test functions, and the framework's registration API
    [TinyFW.test_method]: called with the metadata as keyword arguments it
    returns a decorator, which applied to a test function returns the
    registered function.  Of the registered function this module reads and
    writes the [case_info] dictionary only. *)
Variable func : Type.

Record test_func : Type := {
  wrapped : func;
  case_info : gmap string value
}.

Variable test_method : gmap string value -> result (func -> result test_func).

(** The inner function of a decorator; its text is the same in the three
    of them, closed over the bound parameters:
[[
  def test(func):
      original_method = TinyFW.test_method(app=app, target=upper_list(target), ci_target=upper_list(ci_target), module=module,
                                           execution_time=execution_time, level=level, dut_dict=TARGET_DUT_CLS_DICT,
                                           erase_nvs=erase_nvs, **kwargs)
      test_func = original_method(func)
      test_func.case_info["ID"] = format_case_id(target, test_func.case_info["name"])
      return test_func
]] *)
Definition test (app target ci_target module execution_time level erase_nvs : value)
    (kwargs : gmap string value) (f : func) : result test_func :=
  target' ← upper_list target;
  ci_target' ← upper_list ci_target;
  args ← call_kwargs [("app", app); ("target", target'); ("ci_target", ci_target');
                      ("module", module); ("execution_time", execution_time);
                      ("level", level); ("dut_dict", TARGET_DUT_CLS_DICT);
                      ("erase_nvs", erase_nvs)] kwargs;
  original_method ← test_method args;
  tf ← original_method f;
  name ← getitem (case_info tf) "name";
  Ok {| wrapped := wrapped tf;
        case_info := <["ID" := VStr (format_case_id target name)]> (case_info tf) |}.

(** [[
def idf_example_test(app=Example, target="ESP32", ci_target=None, module="examples", execution_time=1,
                   level="example", erase_nvs=True, config_name=None, **kwargs):
  def test(func): ...
  return test
]]
    the function under the [@ci_target_check] line, before it is wrapped. *)
Definition idf_example_test_wrapped (kw : gmap string value) : result (func -> result test_func) :=
  Ok (test (kwargs_get kw "app" Example) (kwargs_get kw "target" (VStr "ESP32"))
           (kwargs_get kw "ci_target" VNone) (kwargs_get kw "module" (VStr "examples"))
           (kwargs_get kw "execution_time" (VInt 1)) (kwargs_get kw "level" (VStr "example"))
           (kwargs_get kw "erase_nvs" (VBool true))
           (kwargs_rest ["app"; "target"; "ci_target"; "module"; "execution_time"; "level";
                         "erase_nvs"; "config_name"] kw)).

(** [[
def idf_unit_test(app=UT, target="ESP32", ci_target=None, module="unit-test", execution_time=1,
                level="unit", erase_nvs=True, **kwargs):
]] *)
Definition idf_unit_test_wrapped (kw : gmap string value) : result (func -> result test_func) :=
  Ok (test (kwargs_get kw "app" UT) (kwargs_get kw "target" (VStr "ESP32"))
           (kwargs_get kw "ci_target" VNone) (kwargs_get kw "module" (VStr "unit-test"))
           (kwargs_get kw "execution_time" (VInt 1)) (kwargs_get kw "level" (VStr "unit"))
           (kwargs_get kw "erase_nvs" (VBool true))
           (kwargs_rest ["app"; "target"; "ci_target"; "module"; "execution_time"; "level";
                         "erase_nvs"] kw)).

(** [[
def idf_custom_test(app=TestApp, target="ESP32", ci_target=None, module="misc", execution_time=1,
                  level="integration", erase_nvs=True, config_name=None, group="test-apps", **kwargs):
]] *)
Definition idf_custom_test_wrapped (kw : gmap string value) : result (func -> result test_func) :=
  Ok (test (kwargs_get kw "app" TestApp) (kwargs_get kw "target" (VStr "ESP32"))
           (kwargs_get kw "ci_target" VNone) (kwargs_get kw "module" (VStr "misc"))
           (kwargs_get kw "execution_time" (VInt 1)) (kwargs_get kw "level" (VStr "integration"))
           (kwargs_get kw "erase_nvs" (VBool true))
           (kwargs_rest ["app"; "target"; "ci_target"; "module"; "execution_time"; "level";
                         "erase_nvs"; "config_name"; "group"] kw)).

(** The three names as the module exports them, under [@ci_target_check]. *)
Definition idf_example_test := ci_target_check idf_example_test_wrapped.
Definition idf_unit_test := ci_target_check idf_unit_test_wrapped.
Definition idf_custom_test := ci_target_check idf_custom_test_wrapped.

(** A test module decorates a function: [@idf_xxx_test( **kwargs)] above
    [def f]. *)
Definition decorate (decorator : gmap string value -> result (func -> result test_func))
    (kwargs : gmap string value) (f : func) : result test_func :=
  tst ← decorator kwargs; tst f.

End Registration.

Arguments wrapped {func} _.
Arguments case_info {func} _.

(** ** Performance threshold checker *)

(** *** Paths: [os.path.join] of [posixpath] *)

Fixpoint ends_with (c : ascii) (s : string) : bool :=
  match s with
  | EmptyString => false
  | String c' EmptyString => Ascii.eqb c c'
  | String _ s' => ends_with c s'
  end.

(** One step of the loop of [join]: a component that starts with the
    separator replaces the path; an empty path, or one that ends with the
    separator, takes the component as it is; otherwise the separator goes
    between them. *)
Definition join_step (path b : string) : string :=
  if String.prefix "/" b then b
  else if (String.eqb path EmptyString || ends_with "/" path)%bool then path ++ b
  else path ++ "/" ++ b.

Definition os_path_join (a : string) (p : list string) : string :=
  fold_left join_step p a.

(** *** Plain metric names *)

Fixpoint string_forallb (p : ascii -> bool) (s : string) : bool :=
  match s with
  | EmptyString => true
  | String c s' => p c && string_forallb p s'
  end.

(** A letter, a digit or the underscore: a character that stands for
    itself in a regular expression, before and after [upper]. *)
Definition is_word (c : ascii) : bool :=
  let n := N_of_ascii c in
  ((65 <=? n) && (n <=? 90) || (97 <=? n) && (n <=? 122) ||
   (48 <=? n) && (n <=? 57) || (n =? 95))%N%bool.

(** A metric name as the threshold files use them, a fragment of a C
    macro name: letters, digits and underscores only. *)
Definition plain_name (item : string) : bool := string_forallb is_word item.

(** *** The search for a definition line

    [re.search(r'#define\s+IDF_PERFORMANCE_(MIN|MAX)_{}\s+([\d.]+)'.format(item.upper()), data)]

    The source splices the name into the pattern as it is.  For a plain
    name ([plain_name]) the name spliced in stands for itself, and this is
    the case the matcher below embeds: it compares the name as a literal.
    (A name with other characters makes another regular expression, or
    none; what the search does then is not embedded, and the properties of
    the search carry [plain_name] as a hypothesis.)
    Each [\s+] is followed by a character that is no space and the last
    group runs to the end of the match, so the greedy choice is the only
    one and the matcher needs no backtracking. *)

(** [\s] on ASCII: tab, line feed, vertical tab, form feed, carriage return,
    the four separators 28 to 31, and the space. *)
Definition is_space (c : ascii) : bool :=
  let n := N_of_ascii c in
  ((9 <=? n) && (n <=? 13) || (28 <=? n) && (n <=? 32))%N%bool.

(** [\d] on ASCII *)
Definition is_digit (c : ascii) : bool :=
  let n := N_of_ascii c in
  ((48 <=? n) && (n <=? 57))%N%bool.

(** [[\d.]] *)
Definition is_digit_or_dot (c : ascii) : bool :=
  (is_digit c || Ascii.eqb c ".")%bool.

(** The longest prefix of characters of a class, and what follows it. *)
Fixpoint span (p : ascii -> bool) (s : string) : string * string :=
  match s with
  | EmptyString => (EmptyString, EmptyString)
  | String c s' =>
      if p c then let '(tok, rest) := span p s' in (String c tok, rest)
      else (EmptyString, s)
  end.

(** [p+]: one or more characters of the class, as many as there are. *)
Definition plus (p : ascii -> bool) (s : string) : option (string * string) :=
  match span p s with
  | (EmptyString, _) => None
  | (tok, rest) => Some (tok, rest)
  end.

(** A literal: the text after it, if the text starts with it. *)
Fixpoint literal (lit s : string) : option string :=
  match lit, s with
  | EmptyString, _ => Some s
  | String a lit', String b s' => if Ascii.eqb a b then literal lit' s' else None
  | String _ _, EmptyString => None
  end.

(** The pattern matched at the start of the text: groups 1 and 2. *)
Definition match_here (name : string) (s : string) : option (string * string) :=
  s ← literal "#define" s;
  '(_, s) ← plus is_space s;
  s ← literal "IDF_PERFORMANCE_" s;
  '(op, s) ← match literal "MIN" s with
             | Some s' => Some ("MIN", s')
             | None => match literal "MAX" s with
                       | Some s' => Some ("MAX", s')
                       | None => None
                       end
             end;
  s ← literal "_" s;
  s ← literal name s;
  '(_, s) ← plus is_space s;
  '(number, _) ← plus is_digit_or_dot s;
  Some (op, number).

(** [re.search]: the match at the leftmost position that has one. *)
Fixpoint re_search (name : string) (data : string) : option (string * string) :=
  match match_here name data with
  | Some groups => Some groups
  | None =>
      match data with
      | EmptyString => None
      | String _ data' => re_search name data'
      end
  end.

(** *** [float] of a captured number *)

(** The value [n / d] ([0 <= n], [0 < d]) rounded to the nearest binary64,
    ties to even: the quotient is taken with more than 64 bits, what is left
    of the division gives the position of the exact value between that
    quotient and the next, and [binary_round_aux] rounds from there. *)
Definition binary64_of_ratio (n d : Z) : spec_float :=
  if (n =? 0)%Z then S754_zero false
  else
    let s := (64 + Z.log2_up d)%Z in
    let q := (n * 2 ^ s / d)%Z in
    let r := ((n * 2 ^ s) mod d)%Z in
    let loc := if (r =? 0)%Z then loc_Exact else loc_Inexact (2 * r ?= d)%Z in
    binary_round_aux 53 1024 false q (- s) loc.

Definition digit_value (c : ascii) : Z := (Z.of_N (N_of_ascii c) - 48)%Z.

(** Reads digits with at most one dot: the integer the digits spell and
    the count of digits after the dot; nothing if there is a second dot, no
    digit at all, or another character. *)
Fixpoint decimal (s : string) (seen_dot : bool) (n k : Z) (seen_digit : bool) : option (Z * Z) :=
  match s with
  | EmptyString => if seen_digit then Some (n, k) else None
  | String c s' =>
      if is_digit c
      then decimal s' seen_dot (10 * n + digit_value c)%Z (if seen_dot then k + 1 else k)%Z true
      else if Ascii.eqb c "."
      then (if seen_dot then None else decimal s' true n k seen_digit)
      else None
  end.

(** [float(s)] for the texts that group 2 of the pattern captures, digits
    and dots: the nearest binary64, or [ValueError].  (Signs, exponents,
    [inf], [nan], underscores and surrounding space, which Python reads too,
    do not occur in such a text.) *)
Definition float (s : string) : result spec_float :=
  match decimal s false 0 0 false with
  | Some (n, k) => Ok (binary64_of_ratio n (10 ^ k))
  | None => Raise (ValueError ("could not convert string to float: " ++ repr_str s))
  end.

(** Comparison of floats: [x <= y] and [x >= y]. *)
Definition float_le (x y : spec_float) : bool := SFleb x y.
Definition float_ge (x y : spec_float) : bool := SFleb y x.

(** A float written as a decimal literal, such as [100.1]. *)
Definition float_literal (s : string) : spec_float :=
  match float s with
  | Ok x => x
  | Raise _ => S754_nan
  end.

Section Performance.

(** [IDFApp.get_sdk_path()] and the file system: what [open(path, 'r')]
    followed by [read()] gives for a path, the text of the file or the
    exception raised: [IOError] for a file that cannot be opened (missing,
    a directory, no permission), [UnicodeDecodeError] for a file whose
    bytes are no text in the encoding, and whatever else the two calls
    raise. *)
Variable sdk_path : string.
Variable fs : string -> result string.

(** [[
  def _find_perf_item(path):
      with open(path, 'r') as f:
          data = f.read()
      match = re.search(r'#define\s+IDF_PERFORMANCE_(MIN|MAX)_{}\s+([\d.]+)'.format(item.upper()), data)
      return match.group(1), float(match.group(2))
]] *)
Definition _find_perf_item (item : string) (path : string) : result (string * spec_float) :=
  data ← fs path;
  match re_search (upper item) data with
  | None => Raise AttributeError
  | Some (group1, group2) => x ← float group2; Ok (group1, x)
  end.

(** [[
  def _check_perf(op, standard_value):
      if op == 'MAX':
          ret = value <= standard_value
      else:
          ret = value >= standard_value
      if not ret:
          raise AssertionError("[Performance] {} value is {}, doesn't meet pass standard {}"
                               .format(item, value, standard_value))
]]
    [item] and [value] are the variables of [check_performance] that the
    nested function reads when it runs. *)
Definition _check_perf (item : string) (value : spec_float)
    (op : string) (standard_value : spec_float) : result unit :=
  let ret := if String.eqb op "MAX"
             then float_le value standard_value
             else float_ge value standard_value in
  if negb ret
  then Raise (AssertionError [Text "[Performance] "; Text item; Text " value is "; Num value;
                              Text ", doesn't meet pass standard "; Num standard_value])
  else Ok tt.

(** [[
  for performance_file in performance_files:
      try:
          op, value = _find_perf_item(performance_file)
      except (IOError, AttributeError):
          # performance file doesn't exist or match is not found in it
          continue

      _check_perf(op, value)
      # if no exception was thrown then the performance is met and no need to continue
      break
]]
    The assignment [op, value = ...] binds the [value] of
    [check_performance], the variable [_check_perf] reads.  The loop gives
    its outcome and the files it opened, in order. *)
Fixpoint for_performance_files (item : string) (value : spec_float)
    (performance_files : list string) : result unit * list string :=
  match performance_files with
  | [] => (Ok tt, [])
  | performance_file :: rest =>
      let '(outcome, opened) :=
        match _find_perf_item item performance_file with
        | Raise IOError | Raise AttributeError => for_performance_files item value rest
        | Raise e => (Raise e, [])
        | Ok (op, found) =>
            let value := found in
            (_check_perf item value op value, [])
        end in
      (outcome, performance_file :: opened)
  end.

(** [[
  path_prefix = os.path.join(IDFApp.get_sdk_path(), 'components', 'idf_test', 'include')
  performance_files = (os.path.join(path_prefix, target, 'idf_performance_target.h'),
                       os.path.join(path_prefix, 'idf_performance.h'))
]] *)
Definition path_prefix : string :=
  os_path_join sdk_path ["components"; "idf_test"; "include"].

Definition target_performance_file (target : string) : string :=
  os_path_join path_prefix [target; "idf_performance_target.h"].

Definition generic_performance_file : string :=
  os_path_join path_prefix ["idf_performance.h"].

Definition performance_files (target : string) : list string :=
  [target_performance_file target; generic_performance_file].

(** The threshold record the loop resolves and hands to [_check_perf]:
    that of the first file in which the metric is found; none when no file
    has it, or when [float] fails on the way. *)
Fixpoint resolved_threshold (item : string) (performance_files : list string)
    : option (string * spec_float) :=
  match performance_files with
  | [] => None
  | performance_file :: rest =>
      match _find_perf_item item performance_file with
      | Ok record => Some record
      | Raise IOError | Raise AttributeError => resolved_threshold item rest
      | Raise _ => None
      end
  end.

(** [def check_performance(item, value, target)] *)
Definition check_performance (item : string) (value : spec_float) (target : string)
    : result unit * list string :=
  for_performance_files item value (performance_files target).

End Performance.

Arguments _find_perf_item fs item path : simpl never.

(** ** A framework to run the decorators on *)

(** Modelled from the spec: [TinyFW.test_method], which is not part of this
    module.  It accepts the metadata and returns a decorator that, applied
    to a user function, yields a registered function whose [case_info]
    mapping has at least a ["name"] entry: the name of the function, unless
    the metadata declares one.  A user function is given by its name. *)
Definition tinyfw_test_method (kwargs : gmap string value)
    : result (string -> result (test_func string)) :=
  Ok (fun f => Ok {| wrapped := f; case_info := kwargs ∪ {["name" := VStr f]} |}).

(** The decorators of the module, in the order of the source. *)
Definition registration_decorators (func : Type)
    (test_method : gmap string value -> result (func -> result (test_func func)))
    : list (gmap string value -> result (func -> result (test_func func))) :=
  [idf_example_test func test_method; idf_unit_test func test_method;
   idf_custom_test func test_method].

(** [target] is left out, a string or a list: the forms its documentation
    gives ("target supported, string or list"). *)
Definition documented_target (kwargs : gmap string value) : Prop :=
  match kwargs !! "target" with
  | None | Some (VStr _) | Some (VList _) => True
  | Some _ => False
  end.

(** The case the custom decorator registers for [test_foo] with
    [target="ESP32"]. *)
Definition registered_test_foo : test_func string :=
  Eval vm_compute in
    match decorate string (idf_custom_test string tinyfw_test_method)
            {["target" := VStr "ESP32"]} "test_foo" with
    | Ok tf => tf
    | Raise _ => {| wrapped := EmptyString; case_info := ∅ |}
    end.

(** ** Threshold files to run the checker on *)

Definition idf_path : string := "/opt/esp-idf".

Definition generic_header : string :=
  "#pragma once
#define IDF_PERFORMANCE_MAX_BOOT_TIME                           100.0
#define IDF_PERFORMANCE_MIN_THROUGHPUT                          5.0
".

Definition esp32_header : string :=
  "#pragma once
#define IDF_PERFORMANCE_MAX_BOOT_TIME                           200.0
".

(** Only the generic file exists. *)
Definition generic_only (path : string) : result string :=
  if String.eqb path "/opt/esp-idf/components/idf_test/include/idf_performance.h"
  then Ok generic_header
  else Raise IOError.

(** The generic file and a file for the ESP32, which allows more. *)
Definition generic_and_esp32 (path : string) : result string :=
  if String.eqb path "/opt/esp-idf/components/idf_test/include/ESP32/idf_performance_target.h"
  then Ok esp32_header
  else generic_only path.

(** The generic file and a file for the ESP32 that opens but holds bytes
    that are no text. *)
Definition generic_and_undecodable_esp32 (path : string) : result string :=
  if String.eqb path "/opt/esp-idf/components/idf_test/include/ESP32/idf_performance_target.h"
  then Raise UnicodeDecodeError
  else generic_only path.

(** ** Performance reporter *)

Definition CRLF : string := String (ascii_of_nat 13) (String (ascii_of_nat 10) EmptyString).

(** The two sinks [log_performance] writes to: the console, as the calls
    of [Utility.console_log] in order (message and colour), and the
    [stdout] text of the test case the report holds as the current one. *)
Record report : Type := {
  console : list (string * string);
  stdout : string
}.

(** [[
def log_performance(item, value):
    performance_msg = "[Performance][{}]: {}".format(item, value)
    Utility.console_log(performance_msg, "orange")
    # update to junit test report
    current_junit_case = TinyFW.JunitReport.get_current_test_case()
    current_junit_case.stdout += performance_msg + "\r\n"
]] *)
Definition log_performance (item value : value) (r : report) : report :=
  let performance_msg := "[Performance][" ++ py_str item ++ "]: " ++ py_str value in
  {| console := (console r ++ [(performance_msg, "orange")])%list;
     stdout := stdout r ++ (performance_msg ++ CRLF) |}.

(** A test body that logs several items, one call after the other. *)
Definition log_performances (entries : list (value * value)) (r : report) : report :=
  fold_left (fun r entry => log_performance (fst entry) (snd entry) r) entries r.

(** The console messages as lines of a report. *)
Fixpoint report_lines (messages : list (string * string)) : string :=
  match messages with
  | [] => EmptyString
  | (msg, _) :: rest => (msg ++ CRLF) ++ report_lines rest
  end.

(** ** Vocabulary of the further properties *)

Fixpoint string_count (p : ascii -> bool) (s : string) : nat :=
  match s with
  | EmptyString => 0
  | String c s' => (if p c then 1 else 0) + string_count p s'
  end.

Definition is_dot (c : ascii) : bool := Ascii.eqb c ".".

(** The first character of a text is none of a class (or there is none). *)
Definition stops (p : ascii -> bool) (s : string) : bool :=
  match s with
  | EmptyString => true
  | String c _ => negb (p c)
  end.

(** A text that starts with a definition line as the headers write it,
    [#define IDF_PERFORMANCE_<op>_<NAME> <number>] with some white space in
    the two gaps, and goes on with [rest]. *)
Definition definition_line (gap1 op name gap2 number rest : string) : string :=
  "#define" ++ gap1 ++ "IDF_PERFORMANCE_" ++ op ++ "_" ++ name ++ gap2 ++ number ++ rest.

(** The sign of a float is not set: zero, a positive number or infinity. *)
Definition nonnegative (x : spec_float) : bool :=
  match x with
  | S754_zero s => negb s
  | S754_infinity s => negb s
  | S754_finite s _ _ => negb s
  | S754_nan => false
  end.

(** A keyword argument in one of the forms the docstrings give for the
    targets: left out, [None], a string or a list of strings. *)
Definition documented_form (argument : option value) : Prop :=
  match argument with
  | None | Some VNone | Some (VStr _) | Some (VList _) => True
  | Some _ => False
  end.

(** The parameters the three decorators bind by name, and the keywords
    of the call of [TinyFW.test_method]. *)
Definition bound_by_every_decorator : list string :=
  ["app"; "target"; "ci_target"; "module"; "execution_time"; "level"; "erase_nvs"].

Definition reserved_keywords : list string :=
  ["app"; "target"; "ci_target"; "module"; "execution_time"; "level"; "erase_nvs";
   "config_name"; "group"; "dut_dict"].

(** ** Frameworks and inputs of the further properties *)

(** A framework that registers a case without naming it. *)
Definition nameless_test_method (kwargs : gmap string value)
    : result (string -> result (test_func string)) :=
  Ok (fun f => Ok {| wrapped := f; case_info := ∅ |}).

(** The keyword arguments of the call of [TinyFW.test_method] for a
    rest of keywords without any of the explicit ones. *)
Definition with_keywords (explicit : list (string * value)) (kwargs : gmap string value)
    : gmap string value :=
  foldr (fun kv args => <[fst kv := snd kv]> args) kwargs explicit.

(** A decorator registers with these defaults: what the framework gets
    for [app], [module] and [level] is the argument given or, when it is
    left out, the default. *)
Definition registers_with (func : Type)
    (test_method : gmap string value -> result (func -> result (test_func func)))
    (decorator : gmap string value -> result (func -> result (test_func func)))
    (app module level : value) : Prop :=
  forall (kwargs : gmap string value) (f : func) (tf : test_func func),
    decorate func decorator kwargs f = Ok tf ->
    exists (args : gmap string value) (original_method : func -> result (test_func func))
           (tf0 : test_func func),
      test_method args = Ok original_method /\
      original_method f = Ok tf0 /\
      args !! "app" = Some (kwargs_get kwargs "app" app) /\
      args !! "module" = Some (kwargs_get kwargs "module" module) /\
      args !! "level" = Some (kwargs_get kwargs "level" level).

(** A framework whose registration fails. *)
Definition failing_test_method (kwargs : gmap string value)
    : result (string -> result (test_func string)) :=
  Raise (ValueError "duplicated test case ID").

(** Keyword arguments of a unit test with a timeout and a configuration. *)
Definition unit_test_kwargs : gmap string value :=
  <["timeout" := VInt 30]> (<["config_name" := VStr "release"]> {["target" := VStr "esp32"]}).

(** The case the unit test decorator registers for [test_bar] with them. *)
Definition registered_test_bar : test_func string :=
  Eval vm_compute in
    match decorate string (idf_unit_test string tinyfw_test_method) unit_test_kwargs "test_bar" with
    | Ok tf => tf
    | Raise _ => {| wrapped := EmptyString; case_info := ∅ |}
    end.

(** A target-specific file with a number [float] does not read. *)
Definition broken_esp32_header : string :=
  "#define IDF_PERFORMANCE_MAX_BOOT_TIME 1.2.3
".

Definition generic_and_broken_esp32 (path : string) : result string :=
  if String.eqb path "/opt/esp-idf/components/idf_test/include/ESP32/idf_performance_target.h"
  then Ok broken_esp32_header
  else generic_only path.

(** * Properties *)

(** ** Case identifier formatter *)

(** C8: for every chip token [t] and case name [c], [format_case_id(t, c)]
    is [t], a period and [c], with [t] taken as it is; and
    [format_case_id("ESP32", "test_foo") == "ESP32.test_foo"]. *)
Theorem format_case_id_joins_with_period :
  (forall t c : string, format_case_id (VStr t) (VStr c) = t ++ "." ++ c) /\
  format_case_id (VStr "ESP32") (VStr "test_foo") = "ESP32.test_foo".
Proof. split; [intros t c|]; reflexivity. Qed.

(** ** List normalizer *)

Lemma upper_ascii_idempotent (c : ascii) : upper_ascii (upper_ascii c) = upper_ascii c.
Proof. destruct c as [[] [] [] [] [] [] [] []]; reflexivity. Qed.

Lemma upper_idempotent (s : string) : upper (upper s) = upper s.
Proof.
  unfold upper. induction s as [|c s IH]; simpl; [reflexivity|].
  rewrite upper_ascii_idempotent, IH. reflexivity.
Qed.

Lemma map_upper_idempotent (l : list string) : map upper (map upper l) = map upper l.
Proof.
  induction l as [|s l IH]; simpl; [reflexivity|].
  rewrite upper_idempotent, IH. reflexivity.
Qed.

Lemma upper_list_str (s : string) : upper_list (VStr s) = Ok (VStr (upper s)).
Proof. destruct s; reflexivity. Qed.

Lemma upper_list_list (l : list string) : upper_list (VList l) = Ok (VList (map upper l)).
Proof. destruct l; reflexivity. Qed.

Lemma upper_list_dict (d : list (string * string)) :
  upper_list (VDict d) = Ok (if truthy (VDict d) then VList (map upper (map fst d)) else VDict d).
Proof. destruct d; reflexivity. Qed.

(** C6: the normalizer returns [None] and empty inputs unchanged, the
    uppercase form of a string ([upper_list("esp32") == "ESP32"]), and for
    a list a list of the uppercased elements, in the same order and as
    many ([upper_list(["esp32","esp32s2"]) == ["ESP32","ESP32S2"]]). *)
Theorem upper_list_contract :
  upper_list VNone = Ok VNone /\
  upper_list (VStr EmptyString) = Ok (VStr EmptyString) /\
  upper_list (VList []) = Ok (VList []) /\
  (forall s : string, upper_list (VStr s) = Ok (VStr (upper s))) /\
  upper_list (VStr "esp32") = Ok (VStr "ESP32") /\
  (forall l : list string,
      exists l', upper_list (VList l) = Ok (VList l') /\
                 length l' = length l /\
                 forall i : nat, l' !! i = upper <$> (l !! i)) /\
  upper_list (VList ["esp32"; "esp32s2"]) = Ok (VList ["ESP32"; "ESP32S2"]).
Proof.
  repeat split; try reflexivity.
  - apply upper_list_str.
  - intros l. exists (map upper l). split; [|split].
    + apply upper_list_list.
    + apply length_map.
    + intros i. apply list_lookup_fmap.
Qed.

(** C10: the normalizer is idempotent: normalizing what it returned
    returns the same, for [None], a string, a list of strings, and any
    other object of the model (an exception stays the exception). *)
Theorem upper_list_idempotent (x : value) :
  upper_list x ≫= upper_list = upper_list x.
Proof.
  destruct x as [|s|l|z|b|c|d]; try reflexivity.
  - rewrite upper_list_str. change (upper_list (VStr (upper s)) = Ok (VStr (upper s))).
    rewrite upper_list_str, upper_idempotent. reflexivity.
  - rewrite upper_list_list. change (upper_list (VList (map upper l)) = Ok (VList (map upper l))).
    rewrite upper_list_list, map_upper_idempotent. reflexivity.
  - destruct z; reflexivity.
  - destruct b; reflexivity.
  - rewrite upper_list_dict. destruct d as [|kv d]; [reflexivity|].
    change (upper_list (VList (map upper (map fst (kv :: d)))) = Ok (VList (map upper (map fst (kv :: d))))).
    rewrite upper_list_list, map_upper_idempotent. reflexivity.
Qed.

(** ** Exceptions and sequencing *)

Lemma bind_Ok {A B : Type} (a : A) (k : A -> result B) : Ok a ≫= k = k a.
Proof. reflexivity. Qed.

Lemma bind_inv_Ok {A B : Type} (r : result A) (k : A -> result B) (b : B) :
  r ≫= k = Ok b -> exists a, r = Ok a /\ k a = Ok b.
Proof. destruct r as [a|e]; [eauto | discriminate]. Qed.

Ltac inv_bind H :=
  let a := fresh "a" in
  let Ha := fresh "Ha" in
  apply bind_inv_Ok in H; destruct H as (a & Ha & H).

(** ** Target / CI-target validator *)

(** The wrapper, once the two sets are built: it raises or it calls. *)
Lemma ci_target_check_sets {A : Type} (func : gmap string value -> result A)
    (kwargs : gmap string value) (target ci_target : value) (C T : gset string) :
  upper_list (kwargs_get kwargs "target" (VList [])) = Ok target ->
  upper_list (kwargs_get kwargs "ci_target" (VList [])) = Ok ci_target ->
  py_set ci_target = Ok C ->
  py_set target = Ok T ->
  ci_target_check func kwargs = if bool_decide (C ⊆ T) then func kwargs else Raise (ValueError "ci_target must be a subset of target").
Proof.
  intros Ht Hc HC HT. unfold ci_target_check.
  rewrite Ht, bind_Ok, Hc, bind_Ok, HC, bind_Ok, HT, bind_Ok.
  destruct (bool_decide (C ⊆ T)); reflexivity.
Qed.

(** What the wrapper returns without raising, the wrapped function returned. *)
Lemma ci_target_check_Ok {A : Type} (func : gmap string value -> result A)
    (kwargs : gmap string value) (a : A) :
  ci_target_check func kwargs = Ok a -> func kwargs = Ok a.
Proof.
  unfold ci_target_check. intros H.
  inv_bind H. inv_bind H. inv_bind H. inv_bind H.
  destruct (bool_decide _); [exact H | discriminate].
Qed.

Lemma documented_target_set (kwargs : gmap string value) :
  documented_target kwargs ->
  exists target T,
    upper_list (kwargs_get kwargs "target" (VList [])) = Ok target /\ py_set target = Ok T.
Proof.
  unfold documented_target, kwargs_get. destruct (kwargs !! "target") as [[]|]; cbn -[upper_list py_set]; try tauto; intros _.
  - rewrite upper_list_str. eexists _, _. split; reflexivity.
  - rewrite upper_list_list. eexists _, _. split; reflexivity.
  - eexists _, _. split; reflexivity.
Qed.

Section Decorators.

Context {func : Type}.
Variable test_method : gmap string value -> result (func -> result (test_func func)).

Local Abbreviation example_test := (idf_example_test func test_method).
Local Abbreviation unit_test := (idf_unit_test func test_method).
Local Abbreviation custom_test := (idf_custom_test func test_method).

(** C3: if the set built from the normalized [ci_target] is not a subset
    of the set built from the normalized [target], each of the three
    decorators raises [ValueError('ci_target must be a subset of target')]
    when it is called, at decoration time; if it is a subset, the call is
    the call of the wrapped function with the same keyword arguments. *)
Theorem ci_target_subset_enforced (kwargs : gmap string value)
    (target ci_target : value) (C T : gset string) :
  upper_list (kwargs_get kwargs "target" (VList [])) = Ok target ->
  upper_list (kwargs_get kwargs "ci_target" (VList [])) = Ok ci_target ->
  py_set ci_target = Ok C ->
  py_set target = Ok T ->
  (C ⊈ T ->
     example_test kwargs = Raise (ValueError "ci_target must be a subset of target") /\
     unit_test kwargs = Raise (ValueError "ci_target must be a subset of target") /\
     custom_test kwargs = Raise (ValueError "ci_target must be a subset of target")) /\
  (C ⊆ T ->
     example_test kwargs = idf_example_test_wrapped func test_method kwargs /\
     unit_test kwargs = idf_unit_test_wrapped func test_method kwargs /\
     custom_test kwargs = idf_custom_test_wrapped func test_method kwargs).
Proof.
  intros Ht Hc HC HT.
  unfold idf_example_test, idf_unit_test, idf_custom_test.
  rewrite !(ci_target_check_sets _ kwargs target ci_target C T Ht Hc HC HT).
  split; intros Hsub.
  - rewrite bool_decide_eq_false_2 by exact Hsub. repeat split; reflexivity.
  - rewrite bool_decide_eq_true_2 by exact Hsub. repeat split; reflexivity.
Qed.

(** The two cases the claim names: no [ci_target], and [ci_target] equal
    to [target]. *)
Lemma ci_target_check_unset {A : Type} (f : gmap string value -> result A)
    (kwargs : gmap string value) :
  kwargs !! "ci_target" = None -> documented_target kwargs ->
  ci_target_check f kwargs = f kwargs.
Proof.
  intros Hc Hdoc. destruct (documented_target_set kwargs Hdoc) as (target & T & Ht & HT).
  assert (Hci : upper_list (kwargs_get kwargs "ci_target" (VList [])) = Ok (VList [])).
  { unfold kwargs_get. rewrite Hc. reflexivity. }
  rewrite (ci_target_check_sets f kwargs target (VList []) ∅ T Ht Hci eq_refl HT).
  rewrite bool_decide_eq_true_2; [reflexivity | apply empty_subseteq].
Qed.

Lemma ci_target_check_equal {A : Type} (f : gmap string value -> result A)
    (kwargs : gmap string value) (v : value) :
  kwargs !! "ci_target" = Some v -> kwargs !! "target" = Some v ->
  documented_target kwargs ->
  ci_target_check f kwargs = f kwargs.
Proof.
  intros Hc Hv Hdoc. destruct (documented_target_set kwargs Hdoc) as (target & T & Ht & HT).
  assert (Hci : upper_list (kwargs_get kwargs "ci_target" (VList [])) = Ok target).
  { rewrite <- Ht. unfold kwargs_get. rewrite Hc, Hv. reflexivity. }
  rewrite (ci_target_check_sets f kwargs target target T T Ht Hci HT HT).
  rewrite bool_decide_eq_true_2; [reflexivity | done].
Qed.

(** C9: with [ci_target] bound to [None] each decorator raises a
    [TypeError] ([set(None)]: the object is not iterable, when [target]
    has a documented form), and does not take [None] for "all declared
    targets"; with [ci_target] left out the validator takes the empty
    list, the subset check passes and the wrapped function is called. *)
Theorem ci_target_none_is_a_type_error (kwargs : gmap string value) :
  (kwargs !! "ci_target" = Some VNone ->
     exists msg,
       example_test kwargs = Raise (TypeError msg) /\
       unit_test kwargs = Raise (TypeError msg) /\
       custom_test kwargs = Raise (TypeError msg) /\
       (documented_target kwargs -> msg = "'NoneType' object is not iterable")) /\
  (kwargs !! "ci_target" = None -> documented_target kwargs ->
     example_test kwargs = idf_example_test_wrapped func test_method kwargs /\
     unit_test kwargs = idf_unit_test_wrapped func test_method kwargs /\
     custom_test kwargs = idf_custom_test_wrapped func test_method kwargs).
Proof.
  split.
  - intros Hc.
    assert (Hgen : exists msg,
               (forall A (f : gmap string value -> result A),
                   ci_target_check f kwargs = Raise (TypeError msg)) /\
               (documented_target kwargs -> msg = "'NoneType' object is not iterable")).
    { unfold ci_target_check, documented_target, kwargs_get. rewrite Hc.
      destruct (kwargs !! "target") as [[|s|l|z|b|c|d]|]; cbn -[upper_list py_set].
      - eexists; split; [intros; reflexivity | tauto].
      - rewrite upper_list_str. eexists; split; [intros; reflexivity | reflexivity].
      - rewrite upper_list_list. eexists; split; [intros; reflexivity | reflexivity].
      - destruct z; (eexists; split; [intros; reflexivity | tauto]).
      - destruct b; (eexists; split; [intros; reflexivity | tauto]).
      - eexists; split; [intros; reflexivity | tauto].
      - rewrite upper_list_dict. eexists; split; [intros; reflexivity | tauto].
      - eexists; split; [intros; reflexivity | reflexivity]. }
    destruct Hgen as (msg & Hraise & Hmsg). exists msg.
    unfold idf_example_test, idf_unit_test, idf_custom_test.
    rewrite !Hraise. repeat split; try reflexivity. exact Hmsg.
  - intros Hc Hdoc. unfold idf_example_test, idf_unit_test, idf_custom_test.
    rewrite !(ci_target_check_unset _ kwargs Hc Hdoc). repeat split; reflexivity.
Qed.

End Decorators.

Lemma ci_target_subset_enforced_witness :
  idf_example_test string tinyfw_test_method
    (<["ci_target" := VList ["esp32"]]> {["target" := VList ["esp32"; "esp32s2"]]})
  = idf_example_test_wrapped string tinyfw_test_method
      (<["ci_target" := VList ["esp32"]]> {["target" := VList ["esp32"; "esp32s2"]]}) /\
  idf_example_test string tinyfw_test_method
    (<["ci_target" := VList ["esp32s2"]]> {["target" := VList ["esp32"]]})
  = Raise (ValueError "ci_target must be a subset of target").
Proof.
  split.
  - assert (Ht : upper_list (kwargs_get (<["ci_target" := VList ["esp32"]]>
                                           {["target" := VList ["esp32"; "esp32s2"]]})
                               "target" (VList [])) = Ok (VList ["ESP32"; "ESP32S2"]))
      by (vm_compute; reflexivity).
    assert (Hc : upper_list (kwargs_get (<["ci_target" := VList ["esp32"]]>
                                           {["target" := VList ["esp32"; "esp32s2"]]})
                               "ci_target" (VList [])) = Ok (VList ["ESP32"]))
      by (vm_compute; reflexivity).
    assert (Hsub : (list_to_set ["ESP32"] : gset string) ⊆ list_to_set ["ESP32"; "ESP32S2"])
      by (apply (bool_decide_unpack _); vm_compute; exact I).
    pose proof (ci_target_subset_enforced tinyfw_test_method _ _ _ _ _ Ht Hc eq_refl eq_refl)
      as [_ Hgood].
    exact (proj1 (Hgood Hsub)).
  - assert (Ht : upper_list (kwargs_get (<["ci_target" := VList ["esp32s2"]]>
                                           {["target" := VList ["esp32"]]})
                               "target" (VList [])) = Ok (VList ["ESP32"]))
      by (vm_compute; reflexivity).
    assert (Hc : upper_list (kwargs_get (<["ci_target" := VList ["esp32s2"]]>
                                           {["target" := VList ["esp32"]]})
                               "ci_target" (VList [])) = Ok (VList ["ESP32S2"]))
      by (vm_compute; reflexivity).
    assert (Hsub : (list_to_set ["ESP32S2"] : gset string) ⊈ list_to_set ["ESP32"])
      by (apply (bool_decide_eq_false_1 _); vm_compute; reflexivity).
    pose proof (ci_target_subset_enforced tinyfw_test_method _ _ _ _ _ Ht Hc eq_refl eq_refl)
      as [Hbad _].
    exact (proj1 (Hbad Hsub)).
Defined.

Lemma ci_target_none_is_a_type_error_witness :
  (exists msg,
      idf_unit_test string tinyfw_test_method
        (<["ci_target" := VNone]> {["target" := VStr "esp32"]}) = Raise (TypeError msg) /\
      msg = "'NoneType' object is not iterable") /\
  idf_unit_test string tinyfw_test_method {["target" := VStr "esp32"]}
  = idf_unit_test_wrapped string tinyfw_test_method {["target" := VStr "esp32"]}.
Proof.
  split.
  - assert (Hc : (<["ci_target" := VNone]> {["target" := VStr "esp32"]} : gmap string value)
                   !! "ci_target" = Some VNone) by (vm_compute; reflexivity).
    assert (Hdoc : documented_target (<["ci_target" := VNone]> {["target" := VStr "esp32"]}))
      by (vm_compute; exact I).
    destruct (proj1 (ci_target_none_is_a_type_error tinyfw_test_method _) Hc)
      as (msg & _ & Hunit & _ & Hmsg).
    exists msg. split; [exact Hunit | exact (Hmsg Hdoc)].
  - assert (Hc : ({["target" := VStr "esp32"]} : gmap string value) !! "ci_target" = None)
      by (vm_compute; reflexivity).
    assert (Hdoc : documented_target {["target" := VStr "esp32"]}) by (vm_compute; exact I).
    exact (proj1 (proj2 (proj2 (ci_target_none_is_a_type_error tinyfw_test_method _) Hc Hdoc))).
Defined.

(** ** Registration decorators *)

(** A string [ci_target] is turned into the set of its characters, a list
    [target] into the set of its elements. *)
Lemma py_set_of_string_is_its_characters (s : string) :
  py_set (VStr s) = Ok (list_to_set (chars s)).
Proof. reflexivity. Qed.

(** C2: [target=["esp32","esp32s2"]] with [ci_target="esp32"], one of the
    declared targets as a single string.  The claim is that the decorator
    call succeeds; in the code the validator compares the characters of
    ["ESP32"] with the two chip names and each of the three decorators
    raises the configuration error. *)
Theorem string_ci_target_of_listed_target_is_rejected (func : Type)
    (test_method : gmap string value -> result (func -> result (test_func func))) :
  let kwargs : gmap string value :=
    <["ci_target" := VStr "esp32"]> {["target" := VList ["esp32"; "esp32s2"]]} in
  idf_example_test func test_method kwargs = Raise (ValueError "ci_target must be a subset of target") /\
  idf_unit_test func test_method kwargs = Raise (ValueError "ci_target must be a subset of target") /\
  idf_custom_test func test_method kwargs = Raise (ValueError "ci_target must be a subset of target").
Proof.
  intros kwargs.
  assert (Ht : upper_list (kwargs_get kwargs "target" (VList [])) = Ok (VList ["ESP32"; "ESP32S2"]))
    by (vm_compute; reflexivity).
  assert (Hc : upper_list (kwargs_get kwargs "ci_target" (VList [])) = Ok (VStr "ESP32"))
    by (vm_compute; reflexivity).
  assert (Hsub : bool_decide ((list_to_set (chars "ESP32") : gset string)
                                ⊆ list_to_set ["ESP32"; "ESP32S2"]) = false)
    by (vm_compute; reflexivity).
  assert (HT : py_set (VList ["ESP32"; "ESP32S2"]) = Ok (list_to_set ["ESP32"; "ESP32S2"]))
    by reflexivity.
  pose proof (py_set_of_string_is_its_characters "ESP32") as HC.
  pose proof (fun A f => @ci_target_check_sets A f kwargs _ _ _ _ Ht Hc HC HT) as Hw.
  rewrite Hsub in Hw.
  unfold idf_example_test, idf_unit_test, idf_custom_test.
  split; [apply Hw | split; apply Hw].
Qed.

(** With the same arguments the wrapped function, called past the
    validator, registers the case and stamps it with
    [format_case_id(target, name)], the list printed as Python prints it. *)
Example listed_target_identifier :
  exists tf,
    decorate string (idf_example_test_wrapped string tinyfw_test_method)
      (<["ci_target" := VStr "esp32"]> {["target" := VList ["esp32"; "esp32s2"]]}) "test_foo" = Ok tf /\
    case_info tf !! "ID"
    = Some (VStr (format_case_id (VList ["esp32"; "esp32s2"]) (VStr "test_foo"))) /\
    format_case_id (VList ["esp32"; "esp32s2"]) (VStr "test_foo") = "['esp32', 'esp32s2'].test_foo".
Proof. eexists. split; [vm_compute; reflexivity | split; vm_compute; reflexivity]. Qed.

Lemma call_kwargs_explicit (explicit : list (string * value)) :
  NoDup (map fst explicit) ->
  forall (kwargs args : gmap string value),
    call_kwargs explicit kwargs = Ok args ->
    forall k v, In (k, v) explicit -> args !! k = Some v.
Proof.
  induction explicit as [|[k0 v0] rest IH]; intros Hnd kwargs args Hcall k v Hin; [destruct Hin|].
  cbn [call_kwargs] in Hcall. destruct (kwargs !! k0); [discriminate|].
  inv_bind Hcall. injection Hcall as <-.
  cbn [map fst] in Hnd. apply NoDup_cons in Hnd as [Hk0 Hnd].
  destruct Hin as [Heq|Hin].
  - injection Heq as <- <-. apply lookup_insert_eq.
  - rewrite lookup_insert_ne.
    + eapply IH; eassumption.
    + intros <-. apply Hk0. apply list_elem_of_In. apply (in_map fst _ _ Hin).
Qed.

Section Identifier.

Context {func : Type}.
Variable test_method : gmap string value -> result (func -> result (test_func func)).

(** What a successful run of the inner function [test] did: the framework
    got the normalized target, the identifier was made from the target as
    the decorator received it. *)
Lemma test_Ok (app target ci_target module execution_time level erase_nvs : value)
    (kwargs : gmap string value) (f : func) (tf : test_func func) :
  test func test_method app target ci_target module execution_time level erase_nvs kwargs f = Ok tf ->
  exists (target' : value) (args : gmap string value)
         (original_method : func -> result (test_func func)) (tf0 : test_func func) (name : value),
    upper_list target = Ok target' /\
    args !! "target" = Some target' /\
    test_method args = Ok original_method /\
    original_method f = Ok tf0 /\
    case_info tf0 !! "name" = Some name /\
    case_info tf = <["ID" := VStr (format_case_id target name)]> (case_info tf0).
Proof.
  unfold test. intros H.
  apply bind_inv_Ok in H as (target' & Ht & H).
  apply bind_inv_Ok in H as (ci_target' & Hc & H).
  apply bind_inv_Ok in H as (args & Hargs & H).
  apply bind_inv_Ok in H as (original_method & Hom & H).
  apply bind_inv_Ok in H as (tf0 & Htf0 & H).
  apply bind_inv_Ok in H as (name & Hname & H).
  injection H as <-.
  exists target', args, original_method, tf0, name.
  repeat split; try assumption.
  - eapply (call_kwargs_explicit _ _ _ _ Hargs); right; left; reflexivity.
  - unfold getitem in Hname. destruct (case_info tf0 !! "name"); [congruence | discriminate].
Unshelve.
  repeat (apply NoDup_cons; split; [vm_compute; intros Hin; repeat (apply elem_of_cons in Hin as [Hin|Hin]; [discriminate|]); apply elem_of_nil in Hin; exact Hin|]).
  apply NoDup_nil. exact I.
Qed.

(** And the other way round: when the normalizer, the keyword call and the
    framework go through and the framework named the case, [test] returns
    the registered function with that identifier. *)
Lemma test_registers (app target ci_target module execution_time level erase_nvs : value)
    (kwargs : gmap string value) (f : func)
    (target' ci_target' : value) (args : gmap string value)
    (original_method : func -> result (test_func func)) (tf0 : test_func func) (name : value) :
  upper_list target = Ok target' ->
  upper_list ci_target = Ok ci_target' ->
  call_kwargs [("app", app); ("target", target'); ("ci_target", ci_target');
               ("module", module); ("execution_time", execution_time);
               ("level", level); ("dut_dict", TARGET_DUT_CLS_DICT);
               ("erase_nvs", erase_nvs)] kwargs = Ok args ->
  test_method args = Ok original_method ->
  original_method f = Ok tf0 ->
  case_info tf0 !! "name" = Some name ->
  test func test_method app target ci_target module execution_time level erase_nvs kwargs f
  = Ok {| wrapped := wrapped tf0;
          case_info := <["ID" := VStr (format_case_id target name)]> (case_info tf0) |}.
Proof.
  intros Ht Hc Hargs Hom Hf Hname. unfold test.
  rewrite Ht, bind_Ok, Hc, bind_Ok, Hargs, bind_Ok, Hom, bind_Ok, Hf, bind_Ok.
  unfold getitem. rewrite Hname, bind_Ok. reflexivity.
Qed.

(** C7, as the code has it: for each of the three decorators, the
    identifier stored under ["ID"] is [format_case_id] of the target as it
    was passed (["ESP32"] when it was not) and the case name the framework
    assigned; the uppercased target is what the framework receives.  The
    identifier is [UPPERCASE_TARGET.case_name] only for a target passed in
    uppercase. *)
Theorem case_id_uses_target_as_passed
    (decorator : gmap string value -> result (func -> result (test_func func)))
    (kwargs : gmap string value) (f : func) (tf : test_func func) :
  In decorator (registration_decorators func test_method) ->
  decorate func decorator kwargs f = Ok tf ->
  exists (target' : value) (args : gmap string value)
         (original_method : func -> result (test_func func)) (tf0 : test_func func) (name : value),
    upper_list (kwargs_get kwargs "target" (VStr "ESP32")) = Ok target' /\
    args !! "target" = Some target' /\
    test_method args = Ok original_method /\
    original_method f = Ok tf0 /\
    case_info tf0 !! "name" = Some name /\
    case_info tf !! "ID"
    = Some (VStr (format_case_id (kwargs_get kwargs "target" (VStr "ESP32")) name)).
Proof.
  intros Hin Hdec. unfold decorate in Hdec.
  apply bind_inv_Ok in Hdec as (tst & Hd & Htst).
  assert (Hcase : exists app ci_target module execution_time level erase_nvs rest,
             tst = test func test_method app (kwargs_get kwargs "target" (VStr "ESP32"))
                     ci_target module execution_time level erase_nvs rest).
  { destruct Hin as [<-|[<-|[<-|[]]]]; apply ci_target_check_Ok in Hd;
      injection Hd as <-; repeat eexists. }
  destruct Hcase as (app & ci_target & module & execution_time & level & erase_nvs & rest & ->).
  apply test_Ok in Htst as (target' & args & om & tf0 & name & Ht & Ha & Hom & Hf & Hname & Hinfo).
  exists target', args, om, tf0, name. repeat split; try assumption.
  rewrite Hinfo. apply lookup_insert_eq.
Qed.

End Identifier.

Lemma case_id_uses_target_as_passed_witness :
  exists name,
    case_info registered_test_foo !! "ID"
    = Some (VStr (format_case_id (kwargs_get {["target" := VStr "ESP32"]} "target" (VStr "ESP32"))
                                 name)).
Proof.
  assert (Hdec : decorate string (idf_custom_test string tinyfw_test_method)
                   {["target" := VStr "ESP32"]} "test_foo" = Ok registered_test_foo)
    by (vm_compute; reflexivity).
  destruct (case_id_uses_target_as_passed tinyfw_test_method
              (idf_custom_test string tinyfw_test_method) {["target" := VStr "ESP32"]}
              "test_foo" registered_test_foo
              (or_intror (or_intror (or_introl eq_refl))) Hdec)
    as (target' & args & om & tf0 & name & _ & _ & _ & _ & _ & Hid).
  exists name. exact Hid.
Defined.

(** C7 as the claim states it fails: a lowercase target reaches the
    framework in uppercase, but the identifier keeps it as it was passed. *)
Lemma lowercase_target_keeps_lowercase_identifier :
  exists tf,
    decorate string (idf_example_test string tinyfw_test_method)
      {["target" := VStr "esp32"]} "test_foo" = Ok tf /\
    case_info tf !! "target" = Some (VStr "ESP32") /\
    case_info tf !! "ID" = Some (VStr "esp32.test_foo") /\
    case_info tf !! "ID" <> Some (VStr (format_case_id (VStr (upper "esp32")) (VStr "test_foo"))).
Proof.
  eexists. split; [vm_compute; reflexivity|].
  split; [vm_compute; reflexivity|].
  split; [vm_compute; reflexivity|].
  vm_compute. discriminate.
Qed.

(** ** Floats of the threshold files *)

Lemma shr_1_nonneg (mrs : shr_record) :
  (0 <= shr_m mrs)%Z -> (0 <= shr_m (shr_1 mrs))%Z.
Proof. destruct mrs as [[|[p|p|]|p] r s]; cbn; lia. Qed.

Lemma iter_pos_shr_1_nonneg (p : positive) :
  forall mrs, (0 <= shr_m mrs)%Z -> (0 <= shr_m (SpecFloat.iter_pos shr_1 p mrs))%Z.
Proof.
  induction p as [p IH|p IH|]; intros mrs H; cbn [SpecFloat.iter_pos].
  - apply IH, IH, shr_1_nonneg, H.
  - apply IH, IH, H.
  - apply shr_1_nonneg, H.
Qed.

Lemma shr_fexp_nonneg (prec emax m e : Z) (l : location) :
  (0 <= m)%Z -> (0 <= shr_m (fst (shr_fexp prec emax m e l)))%Z.
Proof.
  intros H. unfold shr_fexp, shr.
  assert (H0 : (0 <= shr_m (shr_record_of_loc m l))%Z) by (destruct l as [|[]]; exact H).
  destruct (fexp prec emax (Zdigits2 m + e) - e)%Z; cbn [fst]; try exact H0.
  apply iter_pos_shr_1_nonneg, H0.
Qed.

Lemma round_nearest_even_nonneg (m : Z) (l : location) :
  (0 <= m)%Z -> (0 <= round_nearest_even m l)%Z.
Proof. intros H. destruct l as [|[]]; cbn; try destruct (Z.even m); lia. Qed.

Lemma binary_round_aux_not_nan (prec emax : Z) (sx : bool) (m e : Z) (l : location) :
  (0 <= m)%Z -> binary_round_aux prec emax sx m e l <> S754_nan.
Proof.
  intros H. unfold binary_round_aux.
  pose proof (shr_fexp_nonneg prec emax m e l H) as H1.
  destruct (shr_fexp prec emax m e l) as [mrs' e']. cbn [fst] in H1.
  pose proof (shr_fexp_nonneg prec emax _ e' loc_Exact
                (round_nearest_even_nonneg _ (loc_of_shr_record mrs') H1)) as H2.
  destruct (shr_fexp prec emax (round_nearest_even (shr_m mrs') (loc_of_shr_record mrs')) e' loc_Exact)
    as [mrs'' e'']. cbn [fst] in H2.
  destruct (shr_m mrs'') as [|p|p]; [discriminate | | lia].
  destruct (e'' <=? emax - prec)%Z; discriminate.
Qed.

Lemma binary64_of_ratio_not_nan (n d : Z) :
  (0 <= n)%Z -> (0 < d)%Z -> binary64_of_ratio n d <> S754_nan.
Proof.
  intros Hn Hd. unfold binary64_of_ratio.
  destruct (n =? 0)%Z; [discriminate|].
  apply binary_round_aux_not_nan.
  apply Z.div_pos; [|exact Hd].
  apply Z.mul_nonneg_nonneg; [exact Hn|]. apply Z.pow_nonneg. lia.
Qed.

Lemma is_digit_value (c : ascii) : is_digit c = true -> (0 <= digit_value c <= 9)%Z.
Proof.
  unfold is_digit, digit_value. intros H.
  apply andb_true_iff in H as [H1 H2].
  apply N.leb_le in H1. apply N.leb_le in H2. lia.
Qed.

Lemma decimal_nonneg (s : string) :
  forall seen_dot n k seen_digit n' k',
    decimal s seen_dot n k seen_digit = Some (n', k') ->
    (0 <= n)%Z -> (0 <= k)%Z -> (0 <= n')%Z /\ (0 <= k')%Z.
Proof.
  induction s as [|c s IH]; intros seen_dot n k seen_digit n' k' H Hn Hk; cbn [decimal] in H.
  - destruct seen_digit; [|discriminate]. injection H as <- <-. split; assumption.
  - destruct (is_digit c) eqn:Hc.
    + apply is_digit_value in Hc. eapply IH; [exact H | lia |].
      destruct seen_dot; lia.
    + destruct (Ascii.eqb c "."); [|discriminate].
      destruct seen_dot; [discriminate|]. eapply IH; eassumption.
Qed.

(** [float] of a captured number is a number: zero, finite or infinite. *)
Lemma float_not_nan (s : string) (x : spec_float) : float s = Ok x -> x <> S754_nan.
Proof.
  unfold float. destruct (decimal s false 0 0 false) as [[n k]|] eqn:Hd; [|discriminate].
  intros H. injection H as <-.
  apply decimal_nonneg in Hd as [Hn Hk]; try lia.
  apply binary64_of_ratio_not_nan; [exact Hn|]. apply Z.pow_pos_nonneg; lia.
Qed.

Lemma float_raises (s : string) (e : exn) : float s = Raise e -> exists msg, e = ValueError msg.
Proof.
  unfold float. destruct (decimal s false 0 0 false) as [[n k]|]; [discriminate|].
  intros H. injection H as <-. eexists. reflexivity.
Qed.

Lemma SFcompare_refl (x : spec_float) : x <> S754_nan -> SFcompare x x = Some Eq.
Proof.
  destruct x as [s|s| |s m e]; intros H; cbn.
  - reflexivity.
  - destruct s; reflexivity.
  - contradiction.
  - rewrite Z.compare_refl.
    assert (Hm : Pos.compare_cont Eq m m = Eq) by apply Pos.compare_refl.
    rewrite Hm. destruct s; reflexivity.
Qed.

Lemma float_le_refl (x : spec_float) : x <> S754_nan -> float_le x x = true.
Proof. intros H. unfold float_le, SFleb. rewrite (SFcompare_refl x H). reflexivity. Qed.

Lemma float_ge_refl (x : spec_float) : x <> S754_nan -> float_ge x x = true.
Proof. intros H. unfold float_ge, SFleb. rewrite (SFcompare_refl x H). reflexivity. Qed.

(** ** Performance threshold checker *)

Section Checker.

Variable sdk_path : string.
Variable fs : string -> result string.

Local Abbreviation find_perf_item := (_find_perf_item fs).

(** [_find_perf_item] raises what reading the file raised,
    [AttributeError] for a text without the definition, [ValueError] for a
    captured number that [float] does not read; nothing else. *)
Lemma _find_perf_item_cases (item path : string) :
  (exists e, fs path = Raise e /\ find_perf_item item path = Raise e) \/
  (exists data, fs path = Ok data /\ re_search (upper item) data = None /\
                find_perf_item item path = Raise AttributeError) \/
  (exists data op number msg,
      fs path = Ok data /\ re_search (upper item) data = Some (op, number) /\
      float number = Raise (ValueError msg) /\ find_perf_item item path = Raise (ValueError msg)) \/
  (exists data op number x,
      fs path = Ok data /\ re_search (upper item) data = Some (op, number) /\
      float number = Ok x /\ x <> S754_nan /\ find_perf_item item path = Ok (op, x)).
Proof.
  unfold _find_perf_item. destruct (fs path) as [data|e]; [|left; exists e; split; reflexivity].
  right. rewrite bind_Ok.
  destruct (re_search (upper item) data) as [[op number]|] eqn:Hre.
  - right. destruct (float number) as [x|e] eqn:Hf.
    + right. exists data, op, number, x. repeat split; try reflexivity; try assumption.
      eapply float_not_nan, Hf.
    + left. destruct (float_raises number e Hf) as [msg ->].
      exists data, op, number, msg. repeat split; try reflexivity; assumption.
  - left. exists data. repeat split; try reflexivity; assumption.
Qed.

Lemma _find_perf_item_not_nan (item path op : string) (x : spec_float) :
  find_perf_item item path = Ok (op, x) -> x <> S754_nan.
Proof.
  intros H.
  destruct (_find_perf_item_cases item path)
    as [(? & _ & H')|[(? & _ & _ & H')|[(? & ? & ? & ? & _ & _ & _ & H')|(? & ? & ? & x' & _ & _ & _ & Hx & H')]]];
    rewrite H' in H; try discriminate.
  injection H as _ <-. exact Hx.
Qed.

(** A number that is compared with itself meets the standard, whatever the
    operator. *)
Lemma _check_perf_self (item op : string) (x : spec_float) :
  x <> S754_nan -> _check_perf item x op x = Ok tt.
Proof.
  intros H. unfold _check_perf.
  rewrite (float_le_refl x H), (float_ge_refl x H).
  destruct (String.eqb op "MAX"); reflexivity.
Qed.

(** The loop does not read the measured value. *)
Lemma for_performance_files_ignores_value (files : list string) (item : string)
    (value value' : spec_float) :
  for_performance_files fs item value files = for_performance_files fs item value' files.
Proof.
  induction files as [|file rest IH]; cbn [for_performance_files]; [reflexivity|].
  rewrite IH. reflexivity.
Qed.

(** When a threshold record is resolved the loop returns normally. *)
Lemma for_performance_files_resolved (files : list string) (item : string)
    (value : spec_float) (op : string) (t : spec_float) :
  resolved_threshold fs item files = Some (op, t) ->
  fst (for_performance_files fs item value files) = Ok tt.
Proof.
  induction files as [|file rest IH]; cbn [for_performance_files resolved_threshold]; [discriminate|].
  destruct (find_perf_item item file) as [[op' x]|e] eqn:Hfind.
  - intros _. cbn [fst]. apply _check_perf_self. eapply _find_perf_item_not_nan, Hfind.
  - destruct e; try discriminate; intros H; specialize (IH H);
      destruct (for_performance_files fs item value rest); exact IH.
Qed.

(** When no file has the metric the loop opens every file and returns. *)
Lemma for_performance_files_skipped (files : list string) (item : string) (value : spec_float) :
  (forall file, In file files ->
     find_perf_item item file = Raise IOError \/ find_perf_item item file = Raise AttributeError) ->
  for_performance_files fs item value files = (Ok tt, files).
Proof.
  induction files as [|file rest IH]; intros H; cbn [for_performance_files]; [reflexivity|].
  rewrite IH by (intros f Hf; apply H; right; exact Hf).
  destruct (H file (or_introl eq_refl)) as [-> | ->]; reflexivity.
Qed.

(** C1: the claim is that a resolved threshold record [(op, t)] is
    compared with the measured value: [MAX] passes iff [value <= t], [MIN]
    iff [value >= t], and a violation raises the [AssertionError] with the
    metric, the measured value and the threshold.  In the code the
    assignment [op, value = _find_perf_item(...)] replaces the measured
    value by the threshold before [_check_perf] reads it, so the threshold
    is compared with itself: whenever a record is resolved,
    [check_performance] returns normally, for every measured value. *)
Theorem resolved_threshold_is_compared_with_itself
    (item : string) (value : spec_float) (target op : string) (t : spec_float) :
  resolved_threshold fs item (performance_files sdk_path target) = Some (op, t) ->
  fst (check_performance sdk_path fs item value target) = Ok tt.
Proof. apply for_performance_files_resolved. Qed.

(** C4: the claim is that for a metric defined in both files the record
    of the target-specific file is enforced and the generic file is not
    consulted.  The scan does stop at the target-specific file, the only
    file opened; but its record is not enforced: by the assignment that
    replaces the measured value (see C1) the call returns normally for
    every measured value. *)
Theorem target_specific_record_found_first_not_enforced
    (item : string) (value : spec_float) (target op : string) (t : spec_float) :
  find_perf_item item (target_performance_file sdk_path target) = Ok (op, t) ->
  check_performance sdk_path fs item value target
  = (Ok tt, [target_performance_file sdk_path target]).
Proof.
  intros H. unfold check_performance, performance_files. cbn [for_performance_files].
  rewrite H. rewrite (_check_perf_self item op t (_find_perf_item_not_nan _ _ _ _ H)).
  reflexivity.
Qed.

(** C5, as the code has it: for a plain metric name, when each of the
    two files either cannot be opened ([IOError]) or is read and its text
    has no definition of the metric, [check_performance] returns normally,
    whatever the measured value, after trying both files.  The loop
    catches [IOError] and [AttributeError] and nothing else: a file whose
    read raises another exception is not skipped, as the example after the
    section shows. *)
Theorem no_threshold_no_check (item : string) (value : spec_float) (target : string) :
  plain_name item = true ->
  (forall file, In file (performance_files sdk_path target) ->
     fs file = Raise IOError \/
     exists data, fs file = Ok data /\ re_search (upper item) data = None) ->
  check_performance sdk_path fs item value target = (Ok tt, performance_files sdk_path target).
Proof.
  intros _ H. apply for_performance_files_skipped. intros file Hin.
  destruct (H file Hin) as [Hnone | (data & Hdata & Hre)].
  - left. unfold _find_perf_item. rewrite Hnone. reflexivity.
  - right. unfold _find_perf_item. rewrite Hdata, bind_Ok, Hre. reflexivity.
Qed.

End Checker.

(** [_check_perf] alone, given the measured value, does what the claim
    says: it returns when the comparison of the operator holds and raises
    the [AssertionError] with the metric, the value and the standard when
    it does not. *)
Lemma _check_perf_compares (item : string) (value : spec_float) (op : string)
    (standard_value : spec_float) :
  let ret := if String.eqb op "MAX" then float_le value standard_value
             else float_ge value standard_value in
  (ret = true -> _check_perf item value op standard_value = Ok tt) /\
  (ret = false ->
     exists msg, _check_perf item value op standard_value = Raise (AssertionError msg) /\
                 In (Text item) msg /\ In (Num value) msg /\ In (Num standard_value) msg).
Proof.
  unfold _check_perf. cbn zeta. split; intros ->; cbn [negb].
  - reflexivity.
  - eexists. split; [reflexivity|]. cbn [In]. tauto.
Qed.

(** The examples of the specification, on [_check_perf] itself: with
    [(MAX, 100.0)], 100.0 passes and 100.1 fails; with [(MIN, 5.0)], 5.0
    passes and 4.9 fails. *)
Example _check_perf_examples :
  _check_perf "boot_time" (float_literal "100.0") "MAX" (float_literal "100.0") = Ok tt /\
  _check_perf "boot_time" (float_literal "100.1") "MAX" (float_literal "100.0")
  = Raise (AssertionError [Text "[Performance] "; Text "boot_time"; Text " value is ";
                           Num (float_literal "100.1"); Text ", doesn't meet pass standard ";
                           Num (float_literal "100.0")]) /\
  _check_perf "throughput" (float_literal "5.0") "MIN" (float_literal "5.0") = Ok tt /\
  (exists msg, _check_perf "throughput" (float_literal "4.9") "MIN" (float_literal "5.0")
               = Raise (AssertionError msg)).
Proof.
  repeat split; try (vm_compute; reflexivity).
  eexists. vm_compute. reflexivity.
Qed.

(** The failing input of C1: the generic file sets [(MAX, 100.0)] for
    [boot_time], the measured value is 100.1; [_check_perf] on the
    measured value raises, [check_performance] returns. *)
Lemma resolved_threshold_is_compared_with_itself_witness :
  resolved_threshold generic_only "boot_time" (performance_files idf_path "ESP32")
  = Some ("MAX", float_literal "100.0") /\
  float_le (float_literal "100.1") (float_literal "100.0") = false /\
  fst (check_performance idf_path generic_only "boot_time" (float_literal "100.1") "ESP32") = Ok tt.
Proof.
  assert (H : resolved_threshold generic_only "boot_time" (performance_files idf_path "ESP32")
              = Some ("MAX", float_literal "100.0")) by (vm_compute; reflexivity).
  split; [exact H|]. split; [vm_compute; reflexivity|].
  exact (resolved_threshold_is_compared_with_itself idf_path generic_only "boot_time"
           (float_literal "100.1") "ESP32" "MAX" (float_literal "100.0") H).
Defined.

(** The failing input of C4: the file of the ESP32 sets [(MAX, 200.0)],
    the generic file [(MAX, 100.0)], the measured value is 250.0.  Only the
    file of the ESP32 is opened; its record would reject the value, the
    call returns. *)
Lemma target_specific_record_found_first_not_enforced_witness :
  _find_perf_item generic_and_esp32 "boot_time" (target_performance_file idf_path "ESP32")
  = Ok ("MAX", float_literal "200.0") /\
  float_le (float_literal "250.0") (float_literal "200.0") = false /\
  check_performance idf_path generic_and_esp32 "boot_time" (float_literal "250.0") "ESP32"
  = (Ok tt, ["/opt/esp-idf/components/idf_test/include/ESP32/idf_performance_target.h"]).
Proof.
  assert (H : _find_perf_item generic_and_esp32 "boot_time" (target_performance_file idf_path "ESP32")
              = Ok ("MAX", float_literal "200.0")) by (vm_compute; reflexivity).
  split; [exact H|]. split; [vm_compute; reflexivity|].
  exact (target_specific_record_found_first_not_enforced idf_path generic_and_esp32 "boot_time"
           (float_literal "250.0") "ESP32" "MAX" (float_literal "200.0") H).
Defined.

(** [latency] is defined in no file: the file of the ESP32 does not exist
    and the generic file has no line for it. *)
Lemma no_threshold_no_check_witness :
  check_performance idf_path generic_only "latency" (float_literal "100.1") "ESP32"
  = (Ok tt, performance_files idf_path "ESP32").
Proof.
  apply no_threshold_no_check; [reflexivity|]. intros file Hin.
  destruct Hin as [<- | [<- | []]].
  - left. vm_compute. reflexivity.
  - right. exists generic_header. split; vm_compute; reflexivity.
Defined.

(** C5 as the claim states it fails.  The file of the ESP32 opens but
    its bytes are no text, and the generic file has no line for [latency]:
    no file yields a match, one of them is unreadable, and the
    [UnicodeDecodeError] of the read comes out of [check_performance],
    before the generic file is tried. *)
Lemma undecodable_file_is_not_skipped :
  plain_name "latency" = true /\
  (forall file, In file (performance_files idf_path "ESP32") ->
     forall data, generic_and_undecodable_esp32 file = Ok data ->
                  re_search (upper "latency") data = None) /\
  check_performance idf_path generic_and_undecodable_esp32 "latency" (float_literal "100.1") "ESP32"
  = (Raise UnicodeDecodeError, [target_performance_file idf_path "ESP32"]).
Proof.
  split; [reflexivity|]. split; [|vm_compute; reflexivity].
  intros file Hin data Hdata. destruct Hin as [<- | [<- | []]].
  - vm_compute in Hdata. discriminate.
  - vm_compute in Hdata. injection Hdata as <-. vm_compute. reflexivity.
Qed.

(** * Further properties *)

(** ** List normalizer and identifier formatter *)

(** X1: what [upper_list] does with an argument that is no chip name
    or list of chip names: a non-zero integer, [True] and a class are not
    iterable and raise the [TypeError] of the iteration; [0], [False] and
    an empty dictionary are false and come back as they are; a dictionary
    with string keys gives the list of its uppercased keys, in the order
    of the dictionary. *)
Theorem upper_list_on_scalars_and_dictionaries :
  (forall z, z <> 0%Z -> upper_list (VInt z) = Raise (TypeError "'int' object is not iterable")) /\
  upper_list (VBool true) = Raise (TypeError "'bool' object is not iterable") /\
  (forall c, upper_list (VClass c) = Raise (TypeError "'type' object is not iterable")) /\
  upper_list (VInt 0) = Ok (VInt 0) /\
  upper_list (VBool false) = Ok (VBool false) /\
  upper_list (VDict []) = Ok (VDict []) /\
  (forall d, d <> [] -> NoDup (map fst d) ->
             upper_list (VDict d) = Ok (VList (map upper (map fst d)))).
Proof.
  repeat split; try reflexivity.
  - intros z Hz. destruct z; [contradiction | reflexivity | reflexivity].
  - intros d Hd _. destruct d; [contradiction | reflexivity].
Qed.

Lemma append_cons (x : ascii) (s r : string) : String x s ++ r = String x (s ++ r).
Proof. reflexivity. Qed.

Lemma append_empty (r : string) : EmptyString ++ r = r.
Proof. reflexivity. Qed.

Lemma upper_list_on_scalars_and_dictionaries_witness :
  upper_list (VInt 5) = Raise (TypeError "'int' object is not iterable") /\
  upper_list TARGET_DUT_CLS_DICT = Ok (VList ["ESP32"; "ESP32S2"]).
Proof.
  split.
  - apply (proj1 upper_list_on_scalars_and_dictionaries). discriminate.
  - apply (proj2 (proj2 (proj2 (proj2 (proj2 (proj2 upper_list_on_scalars_and_dictionaries)))))).
    + discriminate.
    + apply (bool_decide_unpack _). vm_compute. reflexivity.
Defined.

Lemma string_app_assoc (a b c : string) : (a ++ b) ++ c = a ++ (b ++ c).
Proof.
  induction a as [|x a IH]; [reflexivity|].
  rewrite !append_cons, IH. reflexivity.
Qed.

Lemma period_splits (t t' c c' : string) :
  string_mem "." t = false -> string_mem "." t' = false ->
  t ++ "." ++ c = t' ++ "." ++ c' -> t = t' /\ c = c'.
Proof.
  revert t'. induction t as [|x t IH]; intros [|x' t'] Ht Ht' H;
    rewrite ?append_cons, ?append_empty in H.
  - injection H as Hc. subst. split; reflexivity.
  - injection H as Hx _. subst x'. simpl in Ht'. discriminate.
  - injection H as Hx _. subst x. simpl in Ht. discriminate.
  - injection H as Hx H. subst x'.
    simpl in Ht, Ht'.
    apply orb_false_iff in Ht as [_ Ht]. apply orb_false_iff in Ht' as [_ Ht'].
    destruct (IH t' Ht Ht' H) as [Ht1 Hc1]. subst. split; reflexivity.
Qed.

(** X2: for chip tokens without a period the identifier tells the chip
    and the case name apart: two identifiers are equal only for the same
    chip and the same name.  With a period in the chip it does not:
    [("a.b", "c")] and [("a", "b.c")] share ["a.b.c"]. *)
Theorem format_case_id_injective_without_period (t t' c c' : string) :
  string_mem "." t = false -> string_mem "." t' = false ->
  format_case_id (VStr t) (VStr c) = format_case_id (VStr t') (VStr c') ->
  t = t' /\ c = c'.
Proof. intros Ht Ht'. unfold format_case_id. cbn [py_str]. apply period_splits; assumption. Qed.

Lemma format_case_id_injective_without_period_witness :
  "ESP32" = "ESP32" /\ "test_foo" = "test_foo".
Proof.
  apply (format_case_id_injective_without_period "ESP32" "ESP32" "test_foo" "test_foo");
    reflexivity.
Defined.

Example format_case_id_collision :
  format_case_id (VStr "a.b") (VStr "c") = format_case_id (VStr "a") (VStr "b.c").
Proof. reflexivity. Qed.

(** ** Target / CI-target validator *)

Lemma documented_form_set (argument : option value) :
  documented_form argument -> argument <> Some VNone ->
  exists v S, upper_list (default (VList []) argument) = Ok v /\ py_set v = Ok S.
Proof.
  destruct argument as [[|s|l|z|b|c|d]|]; cbn -[upper_list py_set]; try tauto; intros _ Hne.
  - rewrite upper_list_str. eexists _, _. split; reflexivity.
  - rewrite upper_list_list. eexists _, _. split; reflexivity.
  - eexists _, _. split; reflexivity.
Qed.

(** X3: with [target] and [ci_target] each in a documented form (left
    out, [None], a string or a list of strings) the wrapper has three
    outcomes.  It raises the [TypeError] of [set(None)] exactly when one of
    the two is given as [None]; otherwise it hands the call over to the
    wrapped function, with its result as it is, or raises the configuration
    error. *)
Theorem ci_target_check_on_documented_forms {A : Type}
    (func : gmap string value -> result A) (kwargs : gmap string value) :
  documented_form (kwargs !! "target") ->
  documented_form (kwargs !! "ci_target") ->
  (kwargs !! "ci_target" = Some VNone \/ kwargs !! "target" = Some VNone ->
   ci_target_check func kwargs = Raise (TypeError "'NoneType' object is not iterable")) /\
  (kwargs !! "ci_target" <> Some VNone -> kwargs !! "target" <> Some VNone ->
   ci_target_check func kwargs = func kwargs \/
   ci_target_check func kwargs = Raise (ValueError "ci_target must be a subset of target")).
Proof.
  intros Ht Hc. split.
  - intros Hnone.
    destruct (decide (kwargs !! "ci_target" = Some VNone)) as [Hci | Hci].
    + unfold ci_target_check, kwargs_get. rewrite Hci.
      destruct (kwargs !! "target") as [[|s|l|z|b|c|d]|]; cbn -[upper_list py_set] in *;
        try tauto; rewrite ?upper_list_str, ?upper_list_list; reflexivity.
    + destruct Hnone as [Hci' | Htarget]; [contradiction|].
      destruct (documented_form_set _ Hc Hci) as (cv & C & Hcv & HC).
      unfold ci_target_check, kwargs_get. rewrite Htarget.
      change (upper_list (default (VList []) (Some VNone))) with (Ok VNone : result value).
      rewrite bind_Ok, Hcv, bind_Ok, HC. reflexivity.
  - intros Hci Htarget.
    destruct (documented_form_set _ Ht Htarget) as (tv & T & Htv & HT).
    destruct (documented_form_set _ Hc Hci) as (cv & C & Hcv & HC).
    rewrite (ci_target_check_sets func kwargs tv cv C T Htv Hcv HC HT).
    destruct (bool_decide (C ⊆ T)); [left | right]; reflexivity.
Qed.

Lemma ci_target_check_on_documented_forms_witness :
  ci_target_check (fun _ => Ok tt) (<["ci_target" := VStr "esp32"]> {["target" := VNone]})
  = Raise (TypeError "'NoneType' object is not iterable") /\
  (ci_target_check (fun _ => Ok tt) {["target" := VStr "esp32"]} = Ok tt \/
   ci_target_check (fun _ => Ok tt) {["target" := VStr "esp32"]}
   = Raise (ValueError "ci_target must be a subset of target")).
Proof.
  split.
  - assert (Ht : (<["ci_target" := VStr "esp32"]> {["target" := VNone]} : gmap string value)
                   !! "target" = Some VNone) by (vm_compute; reflexivity).
    assert (Hc : (<["ci_target" := VStr "esp32"]> {["target" := VNone]} : gmap string value)
                   !! "ci_target" = Some (VStr "esp32")) by (vm_compute; reflexivity).
    apply (ci_target_check_on_documented_forms (fun _ => Ok tt)
             (<["ci_target" := VStr "esp32"]> {["target" := VNone]})).
    + rewrite Ht. exact I.
    + rewrite Hc. exact I.
    + right. exact Ht.
  - assert (Ht : ({["target" := VStr "esp32"]} : gmap string value) !! "target"
                 = Some (VStr "esp32")) by (vm_compute; reflexivity).
    assert (Hc : ({["target" := VStr "esp32"]} : gmap string value) !! "ci_target" = None)
      by (vm_compute; reflexivity).
    apply (ci_target_check_on_documented_forms (fun _ => Ok tt) {["target" := VStr "esp32"]}).
    + rewrite Ht. exact I.
    + rewrite Hc. exact I.
    + rewrite Hc. discriminate.
    + rewrite Ht. discriminate.
Defined.

(** The wrapper on the items of the two normalized arguments. *)
Lemma ci_target_check_items {A : Type} (func : gmap string value -> result A)
    (kwargs : gmap string value) (target ci_target : value) (lt lc : list string) :
  upper_list (kwargs_get kwargs "target" (VList [])) = Ok target ->
  upper_list (kwargs_get kwargs "ci_target" (VList [])) = Ok ci_target ->
  py_iter ci_target = Ok lc ->
  py_iter target = Ok lt ->
  ((forall x, x ∈ lc -> x ∈ lt) -> ci_target_check func kwargs = func kwargs) /\
  (~ (forall x, x ∈ lc -> x ∈ lt) ->
   ci_target_check func kwargs = Raise (ValueError "ci_target must be a subset of target")).
Proof.
  intros Ht Hc Hlc Hlt.
  assert (HC : py_set ci_target = Ok (list_to_set lc)) by (unfold py_set; rewrite Hlc; reflexivity).
  assert (HT : py_set target = Ok (list_to_set lt)) by (unfold py_set; rewrite Hlt; reflexivity).
  rewrite (ci_target_check_sets func kwargs target ci_target _ _ Ht Hc HC HT).
  assert (Hiff : (list_to_set lc : gset string) ⊆ list_to_set lt <-> (forall x, x ∈ lc -> x ∈ lt)).
  { rewrite elem_of_subseteq. split; intros H x; specialize (H x);
      rewrite !elem_of_list_to_set in *; exact H. }
  split; intros H.
  - rewrite bool_decide_eq_true_2; [reflexivity | apply Hiff, H].
  - rewrite bool_decide_eq_false_2; [reflexivity | intros Hs; apply H, Hiff, Hs].
Qed.

(** X4: with [target] and [ci_target] both strings the wrapper compares
    characters: the call goes through exactly when every character of the
    uppercased [ci_target] occurs in the uppercased [target], whether or
    not the two name the same chip. *)
Theorem ci_target_check_on_strings_compares_characters {A : Type}
    (func : gmap string value -> result A) (kwargs : gmap string value) (t c : string) :
  kwargs !! "target" = Some (VStr t) ->
  kwargs !! "ci_target" = Some (VStr c) ->
  ((forall ch, ch ∈ chars (upper c) -> ch ∈ chars (upper t)) ->
   ci_target_check func kwargs = func kwargs) /\
  (~ (forall ch, ch ∈ chars (upper c) -> ch ∈ chars (upper t)) ->
   ci_target_check func kwargs = Raise (ValueError "ci_target must be a subset of target")).
Proof.
  intros Ht Hc.
  apply (ci_target_check_items func kwargs (VStr (upper t)) (VStr (upper c))).
  - unfold kwargs_get. rewrite Ht. apply upper_list_str.
  - unfold kwargs_get. rewrite Hc. apply upper_list_str.
  - reflexivity.
  - reflexivity.
Qed.

(** X5: with both given as lists the wrapper compares chip names without
    regard to case: the call goes through exactly when every element of
    [ci_target], uppercased, is the uppercase form of an element of
    [target]. *)
Theorem ci_target_check_on_lists_ignores_case {A : Type}
    (func : gmap string value -> result A) (kwargs : gmap string value) (lt lc : list string) :
  kwargs !! "target" = Some (VList lt) ->
  kwargs !! "ci_target" = Some (VList lc) ->
  ((forall x, x ∈ lc -> exists y, y ∈ lt /\ upper x = upper y) ->
   ci_target_check func kwargs = func kwargs) /\
  (~ (forall x, x ∈ lc -> exists y, y ∈ lt /\ upper x = upper y) ->
   ci_target_check func kwargs = Raise (ValueError "ci_target must be a subset of target")).
Proof.
  intros Ht Hc.
  assert (Hiff : (forall x, x ∈ map upper lc -> x ∈ map upper lt) <->
                 (forall x, x ∈ lc -> exists y, y ∈ lt /\ upper x = upper y)).
  { split.
    - intros H x Hx.
      assert (Hux : upper x ∈ map upper lt) by (apply H, list_elem_of_fmap; eauto).
      apply list_elem_of_fmap in Hux as (y & Hy & Hin). eauto.
    - intros H u Hu. apply list_elem_of_fmap in Hu as (x & -> & Hx).
      destruct (H x Hx) as (y & Hy & ->). apply list_elem_of_fmap. eauto. }
  destruct (ci_target_check_items func kwargs (VList (map upper lt)) (VList (map upper lc))
              (map upper lt) (map upper lc)) as [Hpass Hfail].
  - unfold kwargs_get. rewrite Ht. apply upper_list_list.
  - unfold kwargs_get. rewrite Hc. apply upper_list_list.
  - reflexivity.
  - reflexivity.
  - split; intros H.
    + apply Hpass, Hiff, H.
    + apply Hfail. intros H'. apply H, Hiff, H'.
Qed.

Lemma ci_target_check_on_strings_compares_characters_witness :
  ci_target_check (fun _ => Ok tt)
    (<["ci_target" := VStr "esp32s2"]> {["target" := VStr "esp32"]}) = Ok tt.
Proof.
  assert (Ht : (<["ci_target" := VStr "esp32s2"]> {["target" := VStr "esp32"]}
                : gmap string value) !! "target" = Some (VStr "esp32"))
    by (vm_compute; reflexivity).
  assert (Hc : (<["ci_target" := VStr "esp32s2"]> {["target" := VStr "esp32"]}
                : gmap string value) !! "ci_target" = Some (VStr "esp32s2"))
    by (vm_compute; reflexivity).
  assert (Hchars : forall ch, ch ∈ chars (upper "esp32s2") -> ch ∈ chars (upper "esp32")).
  { apply Forall_forall. apply (bool_decide_unpack _). vm_compute. exact I. }
  exact (proj1 (ci_target_check_on_strings_compares_characters (fun _ => Ok tt) _
                  "esp32" "esp32s2" Ht Hc) Hchars).
Defined.

Lemma ci_target_check_on_lists_ignores_case_witness :
  ci_target_check (fun _ => Ok tt)
    (<["ci_target" := VList ["Esp32"]]> {["target" := VList ["esp32"; "ESP32S2"]]}) = Ok tt.
Proof.
  assert (Ht : (<["ci_target" := VList ["Esp32"]]> {["target" := VList ["esp32"; "ESP32S2"]]}
                : gmap string value) !! "target" = Some (VList ["esp32"; "ESP32S2"]))
    by (vm_compute; reflexivity).
  assert (Hc : (<["ci_target" := VList ["Esp32"]]> {["target" := VList ["esp32"; "ESP32S2"]]}
                : gmap string value) !! "ci_target" = Some (VList ["Esp32"]))
    by (vm_compute; reflexivity).
  assert (Hall : forall x, x ∈ ["Esp32"] ->
                           exists y, y ∈ ["esp32"; "ESP32S2"] /\ upper x = upper y).
  { intros x Hx. apply list_elem_of_singleton in Hx as ->.
    exists "esp32". split; [apply list_elem_of_here | reflexivity]. }
  exact (proj1 (ci_target_check_on_lists_ignores_case (fun _ => Ok tt) _ _ _ Ht Hc) Hall).
Defined.

Lemma chars_nonempty (s : string) : s <> EmptyString -> exists ch, ch ∈ chars (upper s).
Proof.
  destruct s as [|c s]; [congruence|]. intros _. eexists. cbn. apply list_elem_of_here.
Qed.

(** X6: the wrapper takes a missing [target] for the empty list, not for
    the default ["ESP32"] of the decorators: with [target] left out, every
    non-empty [ci_target], string or list, is rejected with the
    configuration error. *)
Theorem ci_target_without_target_is_rejected {A : Type}
    (func : gmap string value -> result A) (kwargs : gmap string value) (ci_target : value) :
  kwargs !! "target" = None ->
  kwargs !! "ci_target" = Some ci_target ->
  (exists s, ci_target = VStr s /\ s <> EmptyString) \/
  (exists l, ci_target = VList l /\ l <> []) ->
  ci_target_check func kwargs = Raise (ValueError "ci_target must be a subset of target").
Proof.
  intros Ht Hc Hshape.
  assert (Htarget : upper_list (kwargs_get kwargs "target" (VList [])) = Ok (VList []))
    by (unfold kwargs_get; rewrite Ht; reflexivity).
  destruct Hshape as [(s & -> & Hs) | (l & -> & Hl)].
  - refine (proj2 (ci_target_check_items func kwargs (VList []) (VStr (upper s)) []
                     (chars (upper s)) Htarget _ eq_refl eq_refl) _).
    + unfold kwargs_get. rewrite Hc. apply upper_list_str.
    + intros H. destruct (chars_nonempty s Hs) as [ch Hch].
      apply H in Hch. apply elem_of_nil in Hch. exact Hch.
  - refine (proj2 (ci_target_check_items func kwargs (VList []) (VList (map upper l)) []
                     (map upper l) Htarget _ eq_refl eq_refl) _).
    + unfold kwargs_get. rewrite Hc. apply upper_list_list.
    + intros H. destruct l as [|x l]; [congruence|].
      specialize (H (upper x) (list_elem_of_here _ _)). apply elem_of_nil in H. exact H.
Qed.

Lemma ci_target_without_target_is_rejected_witness :
  idf_example_test string tinyfw_test_method {["ci_target" := VStr "ESP32"]}
  = Raise (ValueError "ci_target must be a subset of target").
Proof.
  assert (Ht : ({["ci_target" := VStr "ESP32"]} : gmap string value) !! "target" = None)
    by (vm_compute; reflexivity).
  assert (Hc : ({["ci_target" := VStr "ESP32"]} : gmap string value) !! "ci_target"
               = Some (VStr "ESP32")) by (vm_compute; reflexivity).
  apply (ci_target_without_target_is_rejected _ _ (VStr "ESP32") Ht Hc).
  left. exists "ESP32". split; [reflexivity | discriminate].
Defined.

(** ** Registration decorators *)

Lemma kwargs_rest_lookup (names : list string) (kwargs : gmap string value) (k : string) :
  kwargs_rest names kwargs !! k = if bool_decide (k ∈ names) then None else kwargs !! k.
Proof.
  unfold kwargs_rest. induction names as [|n names IH]; cbn [foldr].
  - rewrite bool_decide_eq_false_2 by apply not_elem_of_nil. reflexivity.
  - rewrite lookup_delete. destruct (decide (n = k)) as [->|Hne].
    + rewrite bool_decide_eq_true_2 by apply list_elem_of_here. reflexivity.
    + rewrite IH. destruct (bool_decide (k ∈ names)) eqn:Hk.
      * apply bool_decide_eq_true_1 in Hk.
        rewrite bool_decide_eq_true_2 by (apply list_elem_of_further; exact Hk). reflexivity.
      * apply bool_decide_eq_false_1 in Hk.
        rewrite bool_decide_eq_false_2; [reflexivity|].
        intros Hin. apply elem_of_cons in Hin as [->|Hin]; [congruence | exact (Hk Hin)].
Qed.

Lemma call_kwargs_other (explicit : list (string * value)) :
  forall (kwargs args : gmap string value),
    call_kwargs explicit kwargs = Ok args ->
    forall k, k ∉ map fst explicit -> args !! k = kwargs !! k.
Proof.
  induction explicit as [|[k0 v0] rest IH]; intros kwargs args Hcall k Hk.
  - injection Hcall as <-. reflexivity.
  - cbn [call_kwargs] in Hcall. destruct (kwargs !! k0); [discriminate|].
    apply bind_inv_Ok in Hcall as (args' & Hrest & Hcall). injection Hcall as <-.
    rewrite lookup_insert_ne by (intros <-; apply Hk; apply list_elem_of_here).
    eapply IH; [eassumption|]. intros Hin. apply Hk. apply list_elem_of_further. exact Hin.
Qed.

Lemma call_kwargs_free (explicit : list (string * value)) (kwargs : gmap string value) :
  (forall k, k ∈ map fst explicit -> kwargs !! k = None) ->
  call_kwargs explicit kwargs = Ok (with_keywords explicit kwargs).
Proof.
  induction explicit as [|[k0 v0] rest IH]; intros H; cbn [call_kwargs with_keywords foldr].
  - reflexivity.
  - rewrite (H k0) by apply list_elem_of_here.
    rewrite IH by (intros k Hk; apply H, list_elem_of_further, Hk). reflexivity.
Qed.

Lemma call_kwargs_conflict (explicit : list (string * value)) (kwargs : gmap string value)
    (k : string) :
  k ∈ map fst explicit -> is_Some (kwargs !! k) ->
  exists msg, call_kwargs explicit kwargs = Raise (TypeError msg).
Proof.
  induction explicit as [|[k0 v0] rest IH]; intros Hk Hsome; [apply elem_of_nil in Hk; destruct Hk|].
  cbn [call_kwargs]. destruct (kwargs !! k0) eqn:Hk0; [eexists; reflexivity|].
  cbn [map fst] in Hk. apply elem_of_cons in Hk as [->|Hk].
  - rewrite Hk0 in Hsome. destruct Hsome as [? Hs]. discriminate.
  - destruct (IH Hk Hsome) as [msg ->]. exists msg. reflexivity.
Qed.

(** Past the validator the two normalizations of the decorator go
    through: it reads the same arguments, but for the defaults. *)
Lemma ci_target_check_passed_normalizes {A : Type} (func : gmap string value -> result A)
    (kwargs : gmap string value) (a : A) :
  ci_target_check func kwargs = Ok a ->
  exists target' ci_target',
    upper_list (kwargs_get kwargs "target" (VStr "ESP32")) = Ok target' /\
    upper_list (kwargs_get kwargs "ci_target" VNone) = Ok ci_target'.
Proof.
  unfold ci_target_check, kwargs_get. intros H.
  apply bind_inv_Ok in H as (t & Ht & H). apply bind_inv_Ok in H as (c & Hc & _).
  destruct (kwargs !! "target"), (kwargs !! "ci_target"); cbn -[upper_list] in *; eauto.
Qed.

Section Stamping.

Context {func : Type}.
Variable test_method : gmap string value -> result (func -> result (test_func func)).

(** The keywords of the call of the framework, for the bound parameters. *)
Local Abbreviation explicit_keywords app target' ci_target' module execution_time level erase_nvs :=
  [("app", app); ("target", target'); ("ci_target", ci_target');
   ("module", module); ("execution_time", execution_time);
   ("level", level); ("dut_dict", TARGET_DUT_CLS_DICT);
   ("erase_nvs", erase_nvs)].

(** All that a successful run of the inner function did. *)
Lemma test_Ok_steps (app target ci_target module execution_time level erase_nvs : value)
    (kwargs : gmap string value) (f : func) (tf : test_func func) :
  test func test_method app target ci_target module execution_time level erase_nvs kwargs f = Ok tf ->
  exists (target' ci_target' : value) (args : gmap string value)
         (original_method : func -> result (test_func func)) (tf0 : test_func func) (name : value),
    upper_list target = Ok target' /\
    upper_list ci_target = Ok ci_target' /\
    call_kwargs (explicit_keywords app target' ci_target' module execution_time level erase_nvs)
      kwargs = Ok args /\
    test_method args = Ok original_method /\
    original_method f = Ok tf0 /\
    case_info tf0 !! "name" = Some name /\
    tf = {| wrapped := wrapped tf0;
            case_info := <["ID" := VStr (format_case_id target name)]> (case_info tf0) |}.
Proof.
  unfold test. intros H.
  apply bind_inv_Ok in H as (target' & Ht & H).
  apply bind_inv_Ok in H as (ci_target' & Hc & H).
  apply bind_inv_Ok in H as (args & Hargs & H).
  apply bind_inv_Ok in H as (original_method & Hom & H).
  apply bind_inv_Ok in H as (tf0 & Htf0 & H).
  apply bind_inv_Ok in H as (name & Hname & H).
  injection H as <-.
  exists target', ci_target', args, original_method, tf0, name.
  repeat split; try assumption.
  unfold getitem in Hname. destruct (case_info tf0 !! "name"); [congruence | discriminate].
Qed.

(** The inner function a decorator returns: [test] closed over the given
    or default arguments and over the keywords the signature does not
    bind, which never include [dut_dict]. *)
Lemma decorator_returns_test
    (decorator : gmap string value -> result (func -> result (test_func func)))
    (kwargs : gmap string value) (tst : func -> result (test_func func)) :
  In decorator (registration_decorators func test_method) ->
  decorator kwargs = Ok tst ->
  exists (app module level : value) (names : list string),
    tst = test func test_method (kwargs_get kwargs "app" app)
            (kwargs_get kwargs "target" (VStr "ESP32")) (kwargs_get kwargs "ci_target" VNone)
            (kwargs_get kwargs "module" module) (kwargs_get kwargs "execution_time" (VInt 1))
            (kwargs_get kwargs "level" level) (kwargs_get kwargs "erase_nvs" (VBool true))
            (kwargs_rest names kwargs) /\
    (forall k, k ∈ bound_by_every_decorator -> k ∈ names) /\
    (forall k, k ∈ names -> k ∈ reserved_keywords) /\
    "dut_dict" ∉ names.
Proof.
  intros Hin Hd.
  assert (Hlists : forall names : list string,
             bool_decide (Forall (fun k => k ∈ names) bound_by_every_decorator) = true ->
             bool_decide (Forall (fun k => k ∈ reserved_keywords) names) = true ->
             bool_decide ("dut_dict" ∉ names) = true ->
             (forall k, k ∈ bound_by_every_decorator -> k ∈ names) /\
             (forall k, k ∈ names -> k ∈ reserved_keywords) /\
             "dut_dict" ∉ names).
  { intros names H1 H2 H3.
    apply bool_decide_eq_true_1 in H1. apply bool_decide_eq_true_1 in H2.
    apply bool_decide_eq_true_1 in H3.
    split; [apply Forall_forall, H1 | split; [apply Forall_forall, H2 | exact H3]]. }
  destruct Hin as [<-|[<-|[<-|[]]]]; apply ci_target_check_Ok in Hd; injection Hd as <-.
  - exists Example, (VStr "examples"), (VStr "example"),
      ["app"; "target"; "ci_target"; "module"; "execution_time"; "level"; "erase_nvs";
       "config_name"].
    split; [reflexivity|]. apply Hlists; vm_compute; reflexivity.
  - exists UT, (VStr "unit-test"), (VStr "unit"),
      ["app"; "target"; "ci_target"; "module"; "execution_time"; "level"; "erase_nvs"].
    split; [reflexivity|]. apply Hlists; vm_compute; reflexivity.
  - exists TestApp, (VStr "misc"), (VStr "integration"),
      ["app"; "target"; "ci_target"; "module"; "execution_time"; "level"; "erase_nvs";
       "config_name"; "group"].
    split; [reflexivity|]. apply Hlists; vm_compute; reflexivity.
Qed.

End Stamping.

Lemma explicit_keywords_NoDup (app target' ci_target' module execution_time level erase_nvs : value) :
  NoDup (map fst [("app", app); ("target", target'); ("ci_target", ci_target');
                  ("module", module); ("execution_time", execution_time);
                  ("level", level); ("dut_dict", TARGET_DUT_CLS_DICT);
                  ("erase_nvs", erase_nvs)]).
Proof. apply (bool_decide_unpack _). vm_compute. exact I. Qed.

Lemma ci_target_check_ext {A : Type} (func func' : gmap string value -> result A)
    (kwargs kwargs' : gmap string value) :
  kwargs !! "target" = kwargs' !! "target" ->
  kwargs !! "ci_target" = kwargs' !! "ci_target" ->
  func kwargs = func' kwargs' ->
  ci_target_check func kwargs = ci_target_check func' kwargs'.
Proof.
  intros Ht Hc Hf. unfold ci_target_check, kwargs_get. rewrite Ht, Hc, Hf. reflexivity.
Qed.

Section Metadata.

Context {func : Type}.
Variable test_method : gmap string value -> result (func -> result (test_func func)).

(** One successful registration, step by step. *)
Lemma decorate_Ok_steps
    (decorator : gmap string value -> result (func -> result (test_func func)))
    (kwargs : gmap string value) (f : func) (tf : test_func func) :
  In decorator (registration_decorators func test_method) ->
  decorate func decorator kwargs f = Ok tf ->
  exists (app module level : value) (names : list string) (target' ci_target' : value)
         (args : gmap string value) (original_method : func -> result (test_func func))
         (tf0 : test_func func) (name : value),
    (forall k, k ∈ bound_by_every_decorator -> k ∈ names) /\
    (forall k, k ∈ names -> k ∈ reserved_keywords) /\
    ("dut_dict" ∉ names) /\
    upper_list (kwargs_get kwargs "target" (VStr "ESP32")) = Ok target' /\
    upper_list (kwargs_get kwargs "ci_target" VNone) = Ok ci_target' /\
    call_kwargs [("app", kwargs_get kwargs "app" app); ("target", target');
                 ("ci_target", ci_target'); ("module", kwargs_get kwargs "module" module);
                 ("execution_time", kwargs_get kwargs "execution_time" (VInt 1));
                 ("level", kwargs_get kwargs "level" level);
                 ("dut_dict", TARGET_DUT_CLS_DICT);
                 ("erase_nvs", kwargs_get kwargs "erase_nvs" (VBool true))]
      (kwargs_rest names kwargs) = Ok args /\
    test_method args = Ok original_method /\
    original_method f = Ok tf0 /\
    case_info tf0 !! "name" = Some name /\
    tf = {| wrapped := wrapped tf0;
            case_info := <["ID" := VStr (format_case_id (kwargs_get kwargs "target" (VStr "ESP32"))
                                                         name)]> (case_info tf0) |}.
Proof.
  intros Hin Hdec. unfold decorate in Hdec.
  apply bind_inv_Ok in Hdec as (tst & Hd & Htst).
  destruct (decorator_returns_test test_method decorator kwargs tst Hin Hd)
    as (app & module & level & names & -> & Hb & Hr & Hdd).
  apply test_Ok_steps in Htst
    as (target' & ci_target' & args & om & tf0 & name & Ht & Hc & Hargs & Hom & Hf & Hname & Htf).
  exists app, module, level, names, target', ci_target', args, om, tf0, name.
  repeat split; assumption.
Qed.

(** X7: on a successful registration the framework was called with the
    normalized [ci_target] (of [None] when it was left out), with the
    module's chip to driver-class dictionary under [dut_dict], and with
    [execution_time] and [erase_nvs] as given or their defaults [1] and
    [True]. *)
Theorem framework_receives_bound_metadata
    (decorator : gmap string value -> result (func -> result (test_func func)))
    (kwargs : gmap string value) (f : func) (tf : test_func func) :
  In decorator (registration_decorators func test_method) ->
  decorate func decorator kwargs f = Ok tf ->
  exists (args : gmap string value) (original_method : func -> result (test_func func))
         (tf0 : test_func func) (ci_target' : value),
    test_method args = Ok original_method /\
    original_method f = Ok tf0 /\
    upper_list (kwargs_get kwargs "ci_target" VNone) = Ok ci_target' /\
    args !! "ci_target" = Some ci_target' /\
    args !! "dut_dict" = Some TARGET_DUT_CLS_DICT /\
    args !! "execution_time" = Some (kwargs_get kwargs "execution_time" (VInt 1)) /\
    args !! "erase_nvs" = Some (kwargs_get kwargs "erase_nvs" (VBool true)).
Proof.
  intros Hin Hdec.
  destruct (decorate_Ok_steps decorator kwargs f tf Hin Hdec)
    as (app & module & level & names & target' & ci' & args & om & tf0 & name &
        _ & _ & _ & _ & Hc & Hargs & Hom & Hf & _ & _).
  exists args, om, tf0, ci'. repeat split; try assumption.
  all: eapply (call_kwargs_explicit _ (explicit_keywords_NoDup _ _ _ _ _ _ _) _ _ Hargs);
    cbn [In]; tauto.
Qed.

(** X8: every keyword that no decorator binds and that is not [dut_dict]
    reaches the framework with the value it was given, and is absent there
    when it was not given. *)
Theorem extra_keywords_pass_through
    (decorator : gmap string value -> result (func -> result (test_func func)))
    (kwargs : gmap string value) (f : func) (tf : test_func func) :
  In decorator (registration_decorators func test_method) ->
  decorate func decorator kwargs f = Ok tf ->
  exists (args : gmap string value) (original_method : func -> result (test_func func))
         (tf0 : test_func func),
    test_method args = Ok original_method /\
    original_method f = Ok tf0 /\
    forall k, k ∉ reserved_keywords -> args !! k = kwargs !! k.
Proof.
  intros Hin Hdec.
  destruct (decorate_Ok_steps decorator kwargs f tf Hin Hdec)
    as (app & module & level & names & target' & ci' & args & om & tf0 & name &
        _ & Hr & _ & _ & _ & Hargs & Hom & Hf & _ & _).
  exists args, om, tf0. repeat split; try assumption.
  intros k Hk.
  rewrite (call_kwargs_other _ _ _ Hargs k).
  - rewrite kwargs_rest_lookup. rewrite bool_decide_eq_false_2; [reflexivity|].
    intros Hin'. apply Hk, Hr, Hin'.
  - intros Hin'. apply Hk.
    assert (Hsub : Forall (fun k => k ∈ reserved_keywords)
                     ["app"; "target"; "ci_target"; "module"; "execution_time"; "level";
                      "dut_dict"; "erase_nvs"])
      by (apply (bool_decide_unpack _); vm_compute; exact I).
    exact (proj1 (Forall_forall _ _) Hsub k Hin').
Qed.

(** X9: the defaults of the three decorators: the example decorator
    registers with the [Example] application, module ["examples"] and level
    ["example"]; the unit test decorator with [UT], ["unit-test"] and
    ["unit"]; the custom decorator with [TestApp], ["misc"] and
    ["integration"]; an argument that is given replaces its default. *)
Theorem decorator_defaults :
  registers_with func test_method (idf_example_test func test_method)
    Example (VStr "examples") (VStr "example") /\
  registers_with func test_method (idf_unit_test func test_method)
    UT (VStr "unit-test") (VStr "unit") /\
  registers_with func test_method (idf_custom_test func test_method)
    TestApp (VStr "misc") (VStr "integration").
Proof.
  assert (Hgen : forall app module level names,
             registers_with func test_method
               (ci_target_check (fun kw => Ok (test func test_method (kwargs_get kw "app" app)
                  (kwargs_get kw "target" (VStr "ESP32")) (kwargs_get kw "ci_target" VNone)
                  (kwargs_get kw "module" module) (kwargs_get kw "execution_time" (VInt 1))
                  (kwargs_get kw "level" level) (kwargs_get kw "erase_nvs" (VBool true))
                  (kwargs_rest names kw))))
               app module level).
  { intros app module level names kwargs f tf Hdec. unfold decorate in Hdec.
    apply bind_inv_Ok in Hdec as (tst & Hd & Htst).
    apply ci_target_check_Ok in Hd. injection Hd as <-.
    apply test_Ok_steps in Htst
      as (target' & ci' & args & om & tf0 & name & _ & _ & Hargs & Hom & Hf & _ & _).
    exists args, om, tf0. repeat split; try assumption.
    all: eapply (call_kwargs_explicit _ (explicit_keywords_NoDup _ _ _ _ _ _ _) _ _ Hargs);
      cbn [In]; tauto. }
  split; [|split]; apply Hgen.
Qed.

(** X10: [config_name] has no effect on the example and the custom
    decorator, and [group] none on the custom decorator: the signature
    binds them and the inner function does not use them, so a registration
    with the keyword is the registration without it. *)
Theorem config_name_and_group_are_dropped (kwargs : gmap string value) (v : value) (f : func) :
  decorate func (idf_example_test func test_method) (<["config_name" := v]> kwargs) f
  = decorate func (idf_example_test func test_method) (delete "config_name" kwargs) f /\
  decorate func (idf_custom_test func test_method) (<["config_name" := v]> kwargs) f
  = decorate func (idf_custom_test func test_method) (delete "config_name" kwargs) f /\
  decorate func (idf_custom_test func test_method) (<["group" := v]> kwargs) f
  = decorate func (idf_custom_test func test_method) (delete "group" kwargs) f.
Proof.
  assert (Hget : forall key k dflt, key <> k ->
             kwargs_get (<[key := v]> kwargs) k dflt = kwargs_get (delete key kwargs) k dflt).
  { intros key k dflt Hne. unfold kwargs_get.
    rewrite lookup_insert_ne, lookup_delete_ne by exact Hne. reflexivity. }
  assert (Hrest : forall key names, key ∈ names ->
             kwargs_rest names (<[key := v]> kwargs) = kwargs_rest names (delete key kwargs)).
  { intros key names Hin. apply map_eq. intros k. rewrite !kwargs_rest_lookup.
    destruct (bool_decide (k ∈ names)) eqn:Hk; [reflexivity|].
    apply bool_decide_eq_false_1 in Hk.
    assert (Hne : key <> k) by (intros <-; exact (Hk Hin)).
    rewrite lookup_insert_ne, lookup_delete_ne by exact Hne. reflexivity. }
  assert (Hdec : forall (wrapped_decorator : gmap string value -> result (func -> result (test_func func)))
                        (key : string),
             key <> "target" -> key <> "ci_target" ->
             wrapped_decorator (<[key := v]> kwargs) = wrapped_decorator (delete key kwargs) ->
             decorate func (ci_target_check wrapped_decorator) (<[key := v]> kwargs) f
             = decorate func (ci_target_check wrapped_decorator) (delete key kwargs) f).
  { intros w key Ht Hc Hw. unfold decorate.
    rewrite (ci_target_check_ext w w (<[key := v]> kwargs) (delete key kwargs)); [reflexivity| | |exact Hw].
    - rewrite lookup_insert_ne, lookup_delete_ne by exact Ht. reflexivity.
    - rewrite lookup_insert_ne, lookup_delete_ne by exact Hc. reflexivity. }
  split; [|split]; apply Hdec; try discriminate.
  - unfold idf_example_test_wrapped. rewrite !Hget by discriminate.
    rewrite Hrest; [reflexivity|]. apply (bool_decide_unpack _). vm_compute. exact I.
  - unfold idf_custom_test_wrapped. rewrite !Hget by discriminate.
    rewrite Hrest; [reflexivity|]. apply (bool_decide_unpack _). vm_compute. exact I.
  - unfold idf_custom_test_wrapped. rewrite !Hget by discriminate.
    rewrite Hrest; [reflexivity|]. apply (bool_decide_unpack _). vm_compute. exact I.
Qed.

(** X11: the unit test decorator does not bind [config_name] (nor
    [group]): there the keyword goes on to the framework like any extra
    keyword. *)
Theorem unit_test_forwards_config_name
    (kwargs : gmap string value) (f : func) (tf : test_func func) :
  decorate func (idf_unit_test func test_method) kwargs f = Ok tf ->
  exists (args : gmap string value) (original_method : func -> result (test_func func))
         (tf0 : test_func func),
    test_method args = Ok original_method /\
    original_method f = Ok tf0 /\
    args !! "config_name" = kwargs !! "config_name" /\
    args !! "group" = kwargs !! "group".
Proof.
  intros Hdec. unfold decorate in Hdec.
  apply bind_inv_Ok in Hdec as (tst & Hd & Htst).
  apply ci_target_check_Ok in Hd. injection Hd as <-.
  apply test_Ok_steps in Htst
    as (target' & ci' & args & om & tf0 & name & _ & _ & Hargs & Hom & Hf & _ & _).
  exists args, om, tf0. repeat split; try assumption.
  all: rewrite (call_kwargs_other _ _ _ Hargs) by (apply (bool_decide_unpack _); vm_compute; exact I).
  all: rewrite !lookup_delete_ne by discriminate; reflexivity.
Qed.

End Metadata.

Section Applying.

Context {func : Type}.
Variable test_method : gmap string value -> result (func -> result (test_func func)).

(** What applying a decorator does once the decorator call has passed the
    validator and no [dut_dict] keyword was given: it calls the framework
    with one dictionary of keywords, then the decorator the framework
    returned, reads the name and stamps the identifier. *)
Lemma applying_runs_the_framework
    (decorator : gmap string value -> result (func -> result (test_func func)))
    (kwargs : gmap string value) (tst : func -> result (test_func func)) (f : func) :
  In decorator (registration_decorators func test_method) ->
  decorator kwargs = Ok tst ->
  kwargs !! "dut_dict" = None ->
  exists args : gmap string value,
    tst f = (original_method ← test_method args;
             tf0 ← original_method f;
             name ← getitem (case_info tf0) "name";
             Ok {| wrapped := wrapped tf0;
                   case_info := <["ID" := VStr (format_case_id
                                                  (kwargs_get kwargs "target" (VStr "ESP32")) name)]>
                                  (case_info tf0) |}).
Proof.
  intros Hin Hd Hdut.
  assert (Hnorm : exists target' ci_target',
             upper_list (kwargs_get kwargs "target" (VStr "ESP32")) = Ok target' /\
             upper_list (kwargs_get kwargs "ci_target" VNone) = Ok ci_target').
  { destruct Hin as [<-|[<-|[<-|[]]]];
      exact (ci_target_check_passed_normalizes _ _ _ Hd). }
  destruct Hnorm as (target' & ci' & Ht & Hc).
  destruct (decorator_returns_test test_method decorator kwargs tst Hin Hd)
    as (app & module & level & names & -> & Hb & Hr & Hdd).
  eexists. unfold test. rewrite Ht, bind_Ok, Hc, bind_Ok.
  rewrite call_kwargs_free; [rewrite bind_Ok; reflexivity|].
  intros k Hk. rewrite kwargs_rest_lookup.
  destruct (bool_decide (k ∈ names)) eqn:Hkn; [reflexivity|].
  apply bool_decide_eq_false_1 in Hkn.
  cbn [map fst] in Hk.
  destruct (decide (k = "dut_dict")) as [->|Hne]; [exact Hdut|].
  exfalso. apply Hkn, Hb. unfold bound_by_every_decorator.
  revert Hk Hne. rewrite !elem_of_cons, !elem_of_nil. intuition congruence.
Qed.

(** X12: a keyword named [dut_dict] is accepted by the decorator call,
    but applying the decorator to a test function raises a [TypeError]
    (the keyword collides with the one the module passes itself), whatever
    the function and the framework. *)
Theorem dut_dict_keyword_is_a_type_error
    (decorator : gmap string value -> result (func -> result (test_func func)))
    (kwargs : gmap string value) (tst : func -> result (test_func func)) (f : func) :
  In decorator (registration_decorators func test_method) ->
  decorator kwargs = Ok tst ->
  is_Some (kwargs !! "dut_dict") ->
  exists msg, tst f = Raise (TypeError msg).
Proof.
  intros Hin Hd Hdut.
  assert (Hnorm : exists target' ci_target',
             upper_list (kwargs_get kwargs "target" (VStr "ESP32")) = Ok target' /\
             upper_list (kwargs_get kwargs "ci_target" VNone) = Ok ci_target').
  { destruct Hin as [<-|[<-|[<-|[]]]];
      exact (ci_target_check_passed_normalizes _ _ _ Hd). }
  destruct Hnorm as (target' & ci' & Ht & Hc).
  destruct (decorator_returns_test test_method decorator kwargs tst Hin Hd)
    as (app & module & level & names & -> & Hb & Hr & Hdd).
  unfold test. rewrite Ht, bind_Ok, Hc, bind_Ok.
  edestruct (call_kwargs_conflict) as [msg ->]; [| |exists msg; reflexivity].
  - cbn [map fst]. do 6 apply list_elem_of_further. apply list_elem_of_here.
  - rewrite kwargs_rest_lookup, bool_decide_eq_false_2 by exact Hdd. exact Hdut.
Qed.

(** X13: past the validator and without a [dut_dict] keyword, applying
    the decorator succeeds whenever the framework registers the function
    and names the case: what it returns is the function the framework
    registered, stamped with the identifier made of the target as passed
    and of the name the framework gave. *)
Theorem registration_succeeds
    (decorator : gmap string value -> result (func -> result (test_func func)))
    (kwargs : gmap string value) (tst : func -> result (test_func func)) (f : func) :
  In decorator (registration_decorators func test_method) ->
  decorator kwargs = Ok tst ->
  kwargs !! "dut_dict" = None ->
  (forall args, exists original_method tf0 name,
      test_method args = Ok original_method /\ original_method f = Ok tf0 /\
      case_info tf0 !! "name" = Some name) ->
  exists (args : gmap string value) (original_method : func -> result (test_func func))
         (tf0 : test_func func) (name : value),
    test_method args = Ok original_method /\
    original_method f = Ok tf0 /\
    case_info tf0 !! "name" = Some name /\
    tst f = Ok {| wrapped := wrapped tf0;
                  case_info := <["ID" := VStr (format_case_id
                                                 (kwargs_get kwargs "target" (VStr "ESP32")) name)]>
                                 (case_info tf0) |}.
Proof.
  intros Hin Hd Hdut Hfw.
  destruct (applying_runs_the_framework decorator kwargs tst f Hin Hd Hdut) as [args ->].
  destruct (Hfw args) as (om & tf0 & name & Hom & Hf & Hname).
  exists args, om, tf0, name. repeat split; try assumption.
  rewrite Hom, bind_Ok, Hf, bind_Ok. unfold getitem. rewrite Hname, bind_Ok. reflexivity.
Qed.

(** X14: when the framework registers the function but its [case_info]
    has no ["name"], applying the decorator raises [KeyError('name')]. *)
Theorem missing_name_is_a_key_error
    (decorator : gmap string value -> result (func -> result (test_func func)))
    (kwargs : gmap string value) (tst : func -> result (test_func func)) (f : func) :
  In decorator (registration_decorators func test_method) ->
  decorator kwargs = Ok tst ->
  kwargs !! "dut_dict" = None ->
  (forall args, exists original_method tf0,
      test_method args = Ok original_method /\ original_method f = Ok tf0 /\
      case_info tf0 !! "name" = None) ->
  tst f = Raise (KeyError "name").
Proof.
  intros Hin Hd Hdut Hfw.
  destruct (applying_runs_the_framework decorator kwargs tst f Hin Hd Hdut) as [args ->].
  destruct (Hfw args) as (om & tf0 & -> & Hf & Hname).
  rewrite bind_Ok, Hf, bind_Ok. unfold getitem. rewrite Hname. reflexivity.
Qed.

(** X15: an exception of the framework's registration comes out of the
    application of the decorator as it is. *)
Theorem framework_error_propagates
    (decorator : gmap string value -> result (func -> result (test_func func)))
    (kwargs : gmap string value) (tst : func -> result (test_func func)) (f : func) (e : exn) :
  In decorator (registration_decorators func test_method) ->
  decorator kwargs = Ok tst ->
  kwargs !! "dut_dict" = None ->
  (forall args, test_method args = Raise e) ->
  tst f = Raise e.
Proof.
  intros Hin Hd Hdut Hfw.
  destruct (applying_runs_the_framework decorator kwargs tst f Hin Hd Hdut) as [args ->].
  rewrite Hfw. reflexivity.
Qed.

(** X16: the stamp changes the identifier and nothing else: the function
    returned wraps what the framework's function wraps, and every entry of
    its [case_info] but ["ID"] is the framework's; an ["ID"] the framework
    had set is replaced. *)
Theorem stamping_changes_only_the_identifier
    (decorator : gmap string value -> result (func -> result (test_func func)))
    (kwargs : gmap string value) (f : func) (tf : test_func func) :
  In decorator (registration_decorators func test_method) ->
  decorate func decorator kwargs f = Ok tf ->
  exists (args : gmap string value) (original_method : func -> result (test_func func))
         (tf0 : test_func func) (name : value),
    test_method args = Ok original_method /\
    original_method f = Ok tf0 /\
    case_info tf0 !! "name" = Some name /\
    wrapped tf = wrapped tf0 /\
    (forall k, k <> "ID" -> case_info tf !! k = case_info tf0 !! k) /\
    case_info tf !! "name" = Some name /\
    case_info tf !! "ID"
    = Some (VStr (format_case_id (kwargs_get kwargs "target" (VStr "ESP32")) name)).
Proof.
  intros Hin Hdec.
  destruct (decorate_Ok_steps test_method decorator kwargs f tf Hin Hdec)
    as (app & module & level & names & target' & ci' & args & om & tf0 & name &
        _ & _ & _ & _ & _ & _ & Hom & Hf & Hname & ->).
  exists args, om, tf0, name. cbn [wrapped case_info].
  repeat split; try assumption.
  - intros k Hk. apply lookup_insert_ne. congruence.
  - rewrite lookup_insert_ne by discriminate. exact Hname.
  - apply lookup_insert_eq.
Qed.

End Applying.

(** The registrations used as examples. *)
Lemma registered_test_bar_is_registered :
  decorate string (idf_unit_test string tinyfw_test_method) unit_test_kwargs "test_bar"
  = Ok registered_test_bar.
Proof. vm_compute. reflexivity. Qed.

Lemma unit_test_is_a_decorator :
  In (idf_unit_test string tinyfw_test_method) (registration_decorators string tinyfw_test_method).
Proof. right. left. reflexivity. Qed.

Lemma example_test_is_a_decorator (func : Type)
    (test_method : gmap string value -> result (func -> result (test_func func))) :
  In (idf_example_test func test_method) (registration_decorators func test_method).
Proof. left. reflexivity. Qed.

Lemma tinyfw_names_the_case (f : string) (args : gmap string value) :
  exists original_method tf0 name,
    tinyfw_test_method args = Ok original_method /\ original_method f = Ok tf0 /\
    case_info tf0 !! "name" = Some name.
Proof.
  destruct (args !! "name") as [name|] eqn:Hname.
  - eexists _, _, name. split; [reflexivity|]. split; [reflexivity|].
    cbn [case_info]. apply lookup_union_Some_l. exact Hname.
  - eexists _, _, (VStr f). split; [reflexivity|]. split; [reflexivity|].
    cbn [case_info]. rewrite lookup_union_r by exact Hname. apply lookup_singleton_eq.
Qed.

Lemma framework_receives_bound_metadata_witness :
  exists (args : gmap string value) (original_method : string -> result (test_func string))
         (tf0 : test_func string) (ci_target' : value),
    tinyfw_test_method args = Ok original_method /\
    original_method "test_bar" = Ok tf0 /\
    upper_list (kwargs_get unit_test_kwargs "ci_target" VNone) = Ok ci_target' /\
    args !! "ci_target" = Some ci_target' /\
    args !! "dut_dict" = Some TARGET_DUT_CLS_DICT /\
    args !! "execution_time" = Some (kwargs_get unit_test_kwargs "execution_time" (VInt 1)) /\
    args !! "erase_nvs" = Some (kwargs_get unit_test_kwargs "erase_nvs" (VBool true)).
Proof.
  exact (framework_receives_bound_metadata tinyfw_test_method _ unit_test_kwargs "test_bar"
           registered_test_bar unit_test_is_a_decorator registered_test_bar_is_registered).
Defined.

Lemma extra_keywords_pass_through_witness :
  exists (args : gmap string value) (original_method : string -> result (test_func string))
         (tf0 : test_func string),
    tinyfw_test_method args = Ok original_method /\
    original_method "test_bar" = Ok tf0 /\
    forall k, k ∉ reserved_keywords -> args !! k = unit_test_kwargs !! k.
Proof.
  exact (extra_keywords_pass_through tinyfw_test_method _ unit_test_kwargs "test_bar"
           registered_test_bar unit_test_is_a_decorator registered_test_bar_is_registered).
Defined.

Lemma decorator_defaults_witness :
  exists (args : gmap string value) (original_method : string -> result (test_func string))
         (tf0 : test_func string),
    tinyfw_test_method args = Ok original_method /\
    original_method "test_bar" = Ok tf0 /\
    args !! "app" = Some (kwargs_get unit_test_kwargs "app" UT) /\
    args !! "module" = Some (kwargs_get unit_test_kwargs "module" (VStr "unit-test")) /\
    args !! "level" = Some (kwargs_get unit_test_kwargs "level" (VStr "unit")).
Proof.
  exact (proj1 (proj2 (decorator_defaults tinyfw_test_method)) unit_test_kwargs "test_bar"
           registered_test_bar registered_test_bar_is_registered).
Defined.

Lemma unit_test_forwards_config_name_witness :
  exists (args : gmap string value) (original_method : string -> result (test_func string))
         (tf0 : test_func string),
    tinyfw_test_method args = Ok original_method /\
    original_method "test_bar" = Ok tf0 /\
    args !! "config_name" = unit_test_kwargs !! "config_name" /\
    args !! "group" = unit_test_kwargs !! "group".
Proof.
  exact (unit_test_forwards_config_name tinyfw_test_method unit_test_kwargs "test_bar"
           registered_test_bar registered_test_bar_is_registered).
Defined.

Lemma stamping_changes_only_the_identifier_witness :
  exists (args : gmap string value) (original_method : string -> result (test_func string))
         (tf0 : test_func string) (name : value),
    tinyfw_test_method args = Ok original_method /\
    original_method "test_bar" = Ok tf0 /\
    case_info tf0 !! "name" = Some name /\
    wrapped registered_test_bar = wrapped tf0 /\
    (forall k, k <> "ID" -> case_info registered_test_bar !! k = case_info tf0 !! k) /\
    case_info registered_test_bar !! "name" = Some name /\
    case_info registered_test_bar !! "ID"
    = Some (VStr (format_case_id (kwargs_get unit_test_kwargs "target" (VStr "ESP32")) name)).
Proof.
  exact (stamping_changes_only_the_identifier tinyfw_test_method _ unit_test_kwargs "test_bar"
           registered_test_bar unit_test_is_a_decorator registered_test_bar_is_registered).
Defined.

Lemma dut_dict_keyword_is_a_type_error_witness :
  exists tst msg,
    idf_example_test string tinyfw_test_method {["dut_dict" := VNone]} = Ok tst /\
    tst "test_foo" = Raise (TypeError msg).
Proof.
  assert (Hd : idf_example_test string tinyfw_test_method {["dut_dict" := VNone]}
               = idf_example_test_wrapped string tinyfw_test_method {["dut_dict" := VNone]})
    by (vm_compute; reflexivity).
  unfold idf_example_test_wrapped in Hd.
  assert (Hsome : is_Some (({["dut_dict" := VNone]} : gmap string value) !! "dut_dict"))
    by (exists VNone; vm_compute; reflexivity).
  destruct (dut_dict_keyword_is_a_type_error tinyfw_test_method _ _ _ "test_foo"
              (example_test_is_a_decorator _ _) Hd Hsome) as [msg Hmsg].
  eexists _, msg. split; [exact Hd | exact Hmsg].
Defined.

Lemma registration_succeeds_witness :
  exists (tst : string -> result (test_func string)) (args : gmap string value)
         (original_method : string -> result (test_func string))
         (tf0 : test_func string) (name : value),
    idf_example_test string tinyfw_test_method {["target" := VStr "esp32"]} = Ok tst /\
    tinyfw_test_method args = Ok original_method /\
    original_method "test_foo" = Ok tf0 /\
    case_info tf0 !! "name" = Some name /\
    tst "test_foo"
    = Ok {| wrapped := wrapped tf0;
            case_info := <["ID" := VStr (format_case_id
                                           (kwargs_get {["target" := VStr "esp32"]} "target"
                                              (VStr "ESP32")) name)]>
                           (case_info tf0) |}.
Proof.
  assert (Hd : idf_example_test string tinyfw_test_method {["target" := VStr "esp32"]}
               = idf_example_test_wrapped string tinyfw_test_method {["target" := VStr "esp32"]})
    by (vm_compute; reflexivity).
  unfold idf_example_test_wrapped in Hd.
  assert (Hnone : ({["target" := VStr "esp32"]} : gmap string value) !! "dut_dict" = None)
    by (vm_compute; reflexivity).
  destruct (registration_succeeds tinyfw_test_method _ _ _ "test_foo"
              (example_test_is_a_decorator _ _) Hd Hnone (tinyfw_names_the_case "test_foo"))
    as (args & om & tf0 & name & Hom & Hf & Hname & Htf).
  eexists _, args, om, tf0, name. split; [exact Hd|]. repeat split; assumption.
Defined.

Lemma missing_name_is_a_key_error_witness :
  exists tst,
    idf_example_test string nameless_test_method {["target" := VStr "esp32"]} = Ok tst /\
    tst "test_foo" = Raise (KeyError "name").
Proof.
  assert (Hd : idf_example_test string nameless_test_method {["target" := VStr "esp32"]}
               = idf_example_test_wrapped string nameless_test_method {["target" := VStr "esp32"]})
    by (vm_compute; reflexivity).
  unfold idf_example_test_wrapped in Hd.
  assert (Hnone : ({["target" := VStr "esp32"]} : gmap string value) !! "dut_dict" = None)
    by (vm_compute; reflexivity).
  eexists. split; [exact Hd|].
  apply (missing_name_is_a_key_error nameless_test_method _ _ _ "test_foo"
           (example_test_is_a_decorator _ _) Hd Hnone).
  intros args. eexists _, _. repeat split; reflexivity.
Defined.

Lemma framework_error_propagates_witness :
  exists tst,
    idf_example_test string failing_test_method {["target" := VStr "esp32"]} = Ok tst /\
    tst "test_foo" = Raise (ValueError "duplicated test case ID").
Proof.
  assert (Hd : idf_example_test string failing_test_method {["target" := VStr "esp32"]}
               = idf_example_test_wrapped string failing_test_method {["target" := VStr "esp32"]})
    by (vm_compute; reflexivity).
  unfold idf_example_test_wrapped in Hd.
  assert (Hnone : ({["target" := VStr "esp32"]} : gmap string value) !! "dut_dict" = None)
    by (vm_compute; reflexivity).
  eexists. split; [exact Hd|].
  apply (framework_error_propagates failing_test_method _ _ _ "test_foo" _
           (example_test_is_a_decorator _ _) Hd Hnone).
  intros args. reflexivity.
Defined.

(** ** Performance reporter *)

Lemma report_lines_app (a b : list (string * string)) :
  report_lines (a ++ b)%list = report_lines a ++ report_lines b.
Proof.
  induction a as [|[msg colour] a IH]; [reflexivity|].
  cbn [report_lines app]. rewrite IH, !string_app_assoc. reflexivity.
Qed.

Lemma append_empty_r (s : string) : s ++ EmptyString = s.
Proof. induction s as [|c s IH]; [reflexivity|]. rewrite append_cons, IH. reflexivity. Qed.

(** X17: a test body that logs several items leaves, for each of them
    and in their order, one message [[Performance][item]: value] on the
    console, in orange, and the same message with a CR LF at the end of the
    [stdout] of the current case; what the console and the report held
    before is kept in front. *)
Theorem log_performances_appends_in_step (entries : list (value * value)) (r : report) :
  let messages :=
    map (fun entry => ("[Performance][" ++ py_str (fst entry) ++ "]: " ++ py_str (snd entry),
                       "orange")) entries in
  console (log_performances entries r) = (console r ++ messages)%list /\
  stdout (log_performances entries r) = stdout r ++ report_lines messages.
Proof.
  cbn zeta. unfold log_performances. revert r.
  induction entries as [|[item value] entries IH]; intros r; cbn [fold_left map fst snd].
  - rewrite app_nil_r. cbn [report_lines]. rewrite append_empty_r. split; reflexivity.
  - destruct (IH (log_performance item value r)) as [Hc Hs]. rewrite Hc, Hs.
    cbn [log_performance console stdout fst snd report_lines].
    rewrite <- app_assoc. cbn [app]. rewrite !string_app_assoc. split; reflexivity.
Qed.

(** ** Performance threshold checker: paths *)

Lemma ends_with_app (c : ascii) (a b : string) :
  b <> EmptyString -> ends_with c (a ++ b) = ends_with c b.
Proof.
  intros Hb. induction a as [|x a IH]; [reflexivity|].
  rewrite append_cons. cbn [ends_with]. rewrite IH.
  destruct (a ++ b) eqn:Hab; [|reflexivity].
  destruct a; [rewrite append_empty in Hab; contradiction | discriminate].
Qed.

Lemma eqb_app_nonempty (a b : string) :
  b <> EmptyString -> String.eqb (a ++ b) EmptyString = false.
Proof. intros Hb. destruct a; [destruct b; [contradiction | reflexivity] | reflexivity]. Qed.

Lemma join_step_plain (path b : string) :
  String.eqb path EmptyString = false -> ends_with "/" path = false ->
  String.prefix "/" b = false ->
  join_step path b = path ++ "/" ++ b.
Proof. intros H1 H2 H3. unfold join_step. rewrite H3, H1, H2. reflexivity. Qed.

Section Paths.

Variable sdk_path : string.

Hypothesis sdk_path_nonempty : sdk_path <> EmptyString.
Hypothesis sdk_path_no_slash : ends_with "/" sdk_path = false.

Lemma path_prefix_plain :
  path_prefix sdk_path = sdk_path ++ "/components/idf_test/include".
Proof.
  unfold path_prefix, os_path_join. cbn [fold_left].
  assert (H0 : String.eqb sdk_path EmptyString = false).
  { destruct sdk_path; [contradiction | reflexivity]. }
  assert (Hstep : forall dirs b res, dirs <> EmptyString -> ends_with "/" dirs = false ->
             String.prefix "/" b = false -> dirs ++ "/" ++ b = res ->
             join_step (sdk_path ++ dirs) b = sdk_path ++ res).
  { intros dirs b res Hd He Hb <-. rewrite join_step_plain.
    - apply string_app_assoc.
    - apply eqb_app_nonempty, Hd.
    - rewrite ends_with_app by exact Hd. exact He.
    - exact Hb. }
  assert (Hfirst : join_step sdk_path "components" = sdk_path ++ "/components")
    by exact (join_step_plain sdk_path "components" H0 sdk_path_no_slash eq_refl).
  rewrite Hfirst.
  rewrite (Hstep "/components" "idf_test" "/components/idf_test")
    by (discriminate || reflexivity).
  rewrite (Hstep "/components/idf_test" "include" "/components/idf_test/include")
    by (discriminate || reflexivity).
  reflexivity.
Qed.

(** X18: for an SDK path that is not empty and does not end with a
    slash, the generic threshold file is
    [<sdk>/components/idf_test/include/idf_performance.h], and for a target
    that is a plain directory name (not empty, no slash at either end) the
    target-specific one is
    [<sdk>/components/idf_test/include/<target>/idf_performance_target.h];
    the target is taken as it is, not uppercased. *)
Theorem performance_file_paths (target : string) :
  target <> EmptyString -> String.prefix "/" target = false -> ends_with "/" target = false ->
  performance_files sdk_path target
  = [sdk_path ++ "/components/idf_test/include/" ++ target ++ "/idf_performance_target.h";
     sdk_path ++ "/components/idf_test/include/idf_performance.h"].
Proof.
  intros Hne Hpre Hend.
  unfold performance_files, target_performance_file, generic_performance_file, os_path_join.
  rewrite path_prefix_plain. cbn [fold_left].
  assert (Hp1 : String.eqb (sdk_path ++ "/components/idf_test/include") EmptyString = false)
    by (apply eqb_app_nonempty; discriminate).
  assert (Hp2 : ends_with "/" (sdk_path ++ "/components/idf_test/include") = false)
    by (rewrite ends_with_app by discriminate; reflexivity).
  rewrite (join_step_plain _ target Hp1 Hp2 Hpre).
  rewrite (join_step_plain _ "idf_performance.h" Hp1 Hp2 eq_refl).
  rewrite join_step_plain.
  - rewrite !string_app_assoc. reflexivity.
  - rewrite <- string_app_assoc. apply eqb_app_nonempty. exact Hne.
  - rewrite <- string_app_assoc. rewrite ends_with_app by exact Hne. exact Hend.
  - reflexivity.
Qed.

(** X19: a target that is an absolute path replaces the SDK directories:
    the target-specific file is then looked for under the target itself,
    [<target>/idf_performance_target.h]. *)
Theorem absolute_target_drops_the_sdk_path (target : string) :
  String.prefix "/" target = true -> ends_with "/" target = false ->
  target_performance_file sdk_path target = target ++ "/idf_performance_target.h".
Proof.
  intros Hpre Hend. unfold target_performance_file, os_path_join. cbn [fold_left].
  assert (Hstep : join_step (path_prefix sdk_path) target = target)
    by (unfold join_step; rewrite Hpre; reflexivity).
  rewrite Hstep. apply join_step_plain.
  - destruct target; [discriminate | reflexivity].
  - exact Hend.
  - reflexivity.
Qed.

End Paths.

Lemma performance_file_paths_witness :
  performance_files "/opt/esp-idf" "ESP32"
  = ["/opt/esp-idf" ++ "/components/idf_test/include/" ++ "ESP32" ++ "/idf_performance_target.h";
     "/opt/esp-idf" ++ "/components/idf_test/include/idf_performance.h"].
Proof.
  apply (performance_file_paths "/opt/esp-idf"); try discriminate; reflexivity.
Defined.

Lemma absolute_target_drops_the_sdk_path_witness :
  target_performance_file "/opt/esp-idf" "/tmp/ESP32" = "/tmp/ESP32" ++ "/idf_performance_target.h".
Proof.
  apply (absolute_target_drops_the_sdk_path "/opt/esp-idf"); try discriminate; reflexivity.
Defined.

(** ** Performance threshold checker: the search *)

Lemma span_forallb (p : ascii -> bool) (s : string) :
  string_forallb p (fst (span p s)) = true.
Proof.
  induction s as [|c s IH]; [reflexivity|]. cbn [span].
  destruct (p c) eqn:Hc; [|reflexivity].
  destruct (span p s) as [tok rest]. cbn [fst string_forallb] in *. rewrite Hc, IH. reflexivity.
Qed.

Lemma plus_Some (p : ascii -> bool) (s tok rest : string) :
  plus p s = Some (tok, rest) -> tok <> EmptyString /\ string_forallb p tok = true.
Proof.
  unfold plus. pose proof (span_forallb p s) as H.
  destruct (span p s) as [[|c tok'] rest']; [discriminate|].
  intros Heq. injection Heq as <- <-. split; [discriminate | exact H].
Qed.

Lemma span_app (p : ascii -> bool) (tok rest : string) :
  string_forallb p tok = true -> stops p rest = true -> span p (tok ++ rest) = (tok, rest).
Proof.
  intros Htok Hrest. induction tok as [|c tok IH].
  - rewrite append_empty. destruct rest as [|c rest]; [reflexivity|].
    cbn [span]. cbn [stops] in Hrest. apply negb_true_iff in Hrest. rewrite Hrest. reflexivity.
  - rewrite append_cons. cbn [span]. cbn [string_forallb] in Htok.
    apply andb_true_iff in Htok as [Hc Htok]. rewrite Hc, (IH Htok). reflexivity.
Qed.

Lemma plus_app (p : ascii -> bool) (tok rest : string) :
  tok <> EmptyString -> string_forallb p tok = true -> stops p rest = true ->
  plus p (tok ++ rest) = Some (tok, rest).
Proof.
  intros Hne Htok Hrest. unfold plus. rewrite (span_app p tok rest Htok Hrest).
  destruct tok; [contradiction | reflexivity].
Qed.

Lemma literal_app (lit s : string) : literal lit (lit ++ s) = Some s.
Proof.
  induction lit as [|c lit IH]; [destruct s; reflexivity|].
  rewrite append_cons. cbn [literal]. rewrite Ascii.eqb_refl. exact IH.
Qed.

Lemma digit_or_dot_is_no_space (c : ascii) : is_digit_or_dot c = true -> is_space c = false.
Proof.
  destruct c as [[] [] [] [] [] [] [] []]; vm_compute; intros H; try reflexivity; discriminate H.
Qed.

Lemma stops_space_before_number (number rest : string) :
  number <> EmptyString -> string_forallb is_digit_or_dot number = true ->
  stops is_space (number ++ rest) = true.
Proof.
  destruct number as [|c number]; [contradiction|]. intros _ H.
  rewrite append_cons. cbn [stops]. cbn [string_forallb] in H.
  apply andb_true_iff in H as [Hc _]. rewrite (digit_or_dot_is_no_space c Hc). reflexivity.
Qed.

(** The groups of a match: the operator is MIN or MAX and the number is a
    non-empty run of digits and dots. *)
Lemma match_here_groups (name s op number : string) :
  match_here name s = Some (op, number) ->
  (op = "MIN" \/ op = "MAX") /\ number <> EmptyString /\
  string_forallb is_digit_or_dot number = true.
Proof.
  unfold match_here. intros H.
  destruct (literal "#define" s) as [s1|]; [|discriminate]. cbn [mbind option_bind] in H.
  destruct (plus is_space s1) as [[g1 s2]|]; [|discriminate]. cbn [mbind option_bind] in H.
  destruct (literal "IDF_PERFORMANCE_" s2) as [s3|]; [|discriminate]. cbn [mbind option_bind] in H.
  assert (Hop : forall o : option (string * string),
             o = match literal "MIN" s3 with
                 | Some s' => Some ("MIN", s')
                 | None => match literal "MAX" s3 with
                           | Some s' => Some ("MAX", s')
                           | None => None
                           end
                 end ->
             forall op' s4, o = Some (op', s4) -> op' = "MIN" \/ op' = "MAX").
  { intros o -> op' s4 Ho. destruct (literal "MIN" s3); [injection Ho as <- _; left; reflexivity|].
    destruct (literal "MAX" s3); [injection Ho as <- _; right; reflexivity | discriminate]. }
  specialize (Hop _ eq_refl).
  destruct (match literal "MIN" s3 with
            | Some s' => Some ("MIN", s')
            | None => match literal "MAX" s3 with
                      | Some s' => Some ("MAX", s')
                      | None => None
                      end
            end) as [[op' s4]|]; [|discriminate].
  specialize (Hop op' s4 eq_refl). cbn [mbind option_bind] in H.
  destruct (literal "_" s4) as [s5|]; [|discriminate]. cbn [mbind option_bind] in H.
  destruct (literal name s5) as [s6|]; [|discriminate]. cbn [mbind option_bind] in H.
  destruct (plus is_space s6) as [[g2 s7]|]; [|discriminate]. cbn [mbind option_bind] in H.
  destruct (plus is_digit_or_dot s7) as [[num s8]|] eqn:Hnum; [|discriminate].
  cbn [mbind option_bind] in H. injection H as <- <-.
  split; [exact Hop|]. exact (plus_Some _ _ _ _ Hnum).
Qed.

Lemma re_search_groups (name data op number : string) :
  re_search name data = Some (op, number) ->
  (op = "MIN" \/ op = "MAX") /\ number <> EmptyString /\
  string_forallb is_digit_or_dot number = true.
Proof.
  induction data as [|c data IH]; cbn [re_search].
  - destruct (match_here name EmptyString) as [[op' number']|] eqn:Hm; [|discriminate].
    intros H. injection H as <- <-. exact (match_here_groups _ _ _ _ Hm).
  - destruct (match_here name (String c data)) as [[op' number']|] eqn:Hm; [|exact IH].
    intros H. injection H as <- <-. exact (match_here_groups _ _ _ _ Hm).
Qed.

Lemma re_search_here (name data : string) (groups : string * string) :
  match_here name data = Some groups -> re_search name data = Some groups.
Proof. intros H. destruct data; cbn [re_search]; rewrite H; reflexivity. Qed.

Lemma re_search_later (name before data : string) :
  is_Some (re_search name data) -> is_Some (re_search name (before ++ data)).
Proof.
  intros H. induction before as [|c before IH]; [exact H|].
  rewrite append_cons. cbn [re_search].
  destruct (match_here name (String c (before ++ data))); [eexists; reflexivity | exact IH].
Qed.

(** X20: for a plain name, a definition line
    [#define IDF_PERFORMANCE_<op>_<name> <number>] (MIN or MAX, white space
    in the two gaps, a number of digits and dots that ends where the rest
    begins) at the start of a text is found with its operator and its
    number; with any text before it the search still finds a definition of
    the metric. *)
Theorem definition_line_is_found (name gap1 op gap2 number rest before : string) :
  plain_name name = true ->
  op = "MIN" \/ op = "MAX" ->
  gap1 <> EmptyString -> string_forallb is_space gap1 = true ->
  gap2 <> EmptyString -> string_forallb is_space gap2 = true ->
  number <> EmptyString -> string_forallb is_digit_or_dot number = true ->
  stops is_digit_or_dot rest = true ->
  re_search name (definition_line gap1 op name gap2 number rest) = Some (op, number) /\
  is_Some (re_search name (before ++ definition_line gap1 op name gap2 number rest)).
Proof.
  intros _ Hop Hg1 Hs1 Hg2 Hs2 Hn Hd Hrest.
  assert (Hhere : match_here name (definition_line gap1 op name gap2 number rest)
                  = Some (op, number)).
  { unfold match_here, definition_line.
    rewrite (literal_app "#define"). cbn [mbind option_bind].
    rewrite (plus_app is_space gap1
               ("IDF_PERFORMANCE_" ++ op ++ "_" ++ name ++ gap2 ++ number ++ rest)
               Hg1 Hs1 eq_refl).
    cbn [mbind option_bind].
    rewrite (literal_app "IDF_PERFORMANCE_"). cbn [mbind option_bind].
    assert (Hgroup : match literal "MIN" (op ++ "_" ++ name ++ gap2 ++ number ++ rest) with
                     | Some s' => Some ("MIN", s')
                     | None => match literal "MAX" (op ++ "_" ++ name ++ gap2 ++ number ++ rest) with
                               | Some s' => Some ("MAX", s')
                               | None => None
                               end
                     end = Some (op, "_" ++ name ++ gap2 ++ number ++ rest)).
    { destruct Hop as [-> | ->]; reflexivity. }
    rewrite Hgroup. cbn [mbind option_bind].
    rewrite (literal_app "_"). cbn [mbind option_bind].
    rewrite (literal_app name). cbn [mbind option_bind].
    rewrite (plus_app is_space gap2 _ Hg2 Hs2 (stops_space_before_number number rest Hn Hd)).
    cbn [mbind option_bind].
    rewrite (plus_app is_digit_or_dot number rest Hn Hd Hrest). reflexivity. }
  split.
  - apply re_search_here, Hhere.
  - apply re_search_later. rewrite (re_search_here _ _ _ Hhere). eexists; reflexivity.
Qed.

Lemma definition_line_is_found_witness :
  re_search "BOOT_TIME" (definition_line "  " "MAX" "BOOT_TIME" " " "100.0" EmptyString)
  = Some ("MAX", "100.0") /\
  is_Some (re_search "BOOT_TIME"
             ("#pragma once " ++ definition_line "  " "MAX" "BOOT_TIME" " " "100.0" EmptyString)).
Proof.
  apply (definition_line_is_found "BOOT_TIME" "  " "MAX" " " "100.0" EmptyString "#pragma once ");
    try discriminate; try reflexivity.
  right. reflexivity.
Defined.

(** ** Performance threshold checker: numbers *)

Lemma digit_is_no_dot (c : ascii) : is_digit c = true -> is_dot c = false.
Proof.
  destruct c as [[] [] [] [] [] [] [] []]; vm_compute; intros H; try reflexivity; discriminate H.
Qed.

Lemma decimal_second_dot (s : string) :
  forall (seen_dot : bool) (n k : Z) (seen_digit : bool),
    (if seen_dot then 1 else 2) <= string_count is_dot s ->
    decimal s seen_dot n k seen_digit = None.
Proof.
  induction s as [|c s IH]; intros seen_dot n k seen_digit H.
  - cbn [string_count] in H. destruct seen_dot; lia.
  - cbn [decimal]. cbn [string_count] in H.
    destruct (is_digit c) eqn:Hc.
    + rewrite (digit_is_no_dot c Hc) in H. apply IH. exact H.
    + change (is_dot c) with (Ascii.eqb c ".") in H.
      destruct (Ascii.eqb c "."); [|reflexivity].
      destruct seen_dot; [reflexivity|]. apply IH. cbn iota in H |- *. lia.
Qed.

Lemma decimal_no_digit (s : string) :
  forall seen_dot n k,
    string_count is_digit s = 0 -> decimal s seen_dot n k false = None.
Proof.
  induction s as [|c s IH]; intros seen_dot n k H; [reflexivity|].
  cbn [decimal]. cbn [string_count] in H.
  destruct (is_digit c); [discriminate|].
  destruct (Ascii.eqb c "."); [|reflexivity].
  destruct seen_dot; [reflexivity|]. apply IH. exact H.
Qed.

(** [float] does not read a number with two dots, nor one without a
    digit. *)
Lemma float_rejects (s : string) :
  2 <= string_count is_dot s \/ string_count is_digit s = 0 ->
  float s = Raise (ValueError ("could not convert string to float: " ++ repr_str s)).
Proof.
  intros [H|H]; unfold float.
  - rewrite decimal_second_dot by exact H. reflexivity.
  - rewrite decimal_no_digit by exact H. reflexivity.
Qed.

Lemma binary_round_aux_nonnegative (prec emax m e : Z) (l : location) :
  (0 <= m)%Z -> nonnegative (binary_round_aux prec emax false m e l) = true.
Proof.
  intros H. unfold binary_round_aux.
  pose proof (shr_fexp_nonneg prec emax m e l H) as H1.
  destruct (shr_fexp prec emax m e l) as [mrs' e']. cbn [fst] in H1.
  pose proof (shr_fexp_nonneg prec emax _ e' loc_Exact
                (round_nearest_even_nonneg _ (loc_of_shr_record mrs') H1)) as H2.
  destruct (shr_fexp prec emax (round_nearest_even (shr_m mrs') (loc_of_shr_record mrs')) e' loc_Exact)
    as [mrs'' e'']. cbn [fst] in H2.
  destruct (shr_m mrs'') as [|p|p]; [reflexivity | | lia].
  destruct (e'' <=? emax - prec)%Z; reflexivity.
Qed.

Lemma float_nonnegative (s : string) (x : spec_float) : float s = Ok x -> nonnegative x = true.
Proof.
  unfold float. destruct (decimal s false 0 0 false) as [[n k]|] eqn:Hd; [|discriminate].
  intros H. injection H as <-.
  apply decimal_nonneg in Hd as [Hn Hk]; try lia.
  unfold binary64_of_ratio. destruct (n =? 0)%Z; [reflexivity|].
  apply binary_round_aux_nonnegative.
  apply Z.div_pos; [|apply Z.pow_pos_nonneg; lia].
  apply Z.mul_nonneg_nonneg; [exact Hn|]. apply Z.pow_nonneg. lia.
Qed.

Lemma SFleb_total (x y : spec_float) :
  x <> S754_nan -> y <> S754_nan -> SFleb x y = true \/ SFleb y x = true.
Proof.
  intros Hx Hy. unfold SFleb.
  destruct x as [sx|sx| |sx mx ex], y as [sy|sy| |sy my ey]; try contradiction; cbn [SFcompare];
    try (destruct sx; destruct sy; auto; fail);
    try (destruct sx; auto; fail); try (destruct sy; auto; fail); auto.
  rewrite (Z.compare_antisym ex ey).
  assert (Hm : Pos.compare_cont Eq my mx = CompOpp (Pos.compare_cont Eq mx my))
    by (rewrite Pos.compare_cont_antisym; reflexivity).
  rewrite Hm.
  destruct sx, sy; auto; destruct (ex ?= ey)%Z; cbn [CompOpp]; auto;
    destruct (Pos.compare_cont Eq mx my); cbn [CompOpp]; auto.
Qed.

(** X21: [_check_perf], given a measured value: a NaN on either side
    fails under every operator; two numbers always pass under MAX or under
    MIN (the two comparisons leave no gap between them). *)
Theorem _check_perf_nan_and_totality (item : string) :
  (forall op t, exists msg, _check_perf item S754_nan op t = Raise (AssertionError msg)) /\
  (forall op v, exists msg, _check_perf item v op S754_nan = Raise (AssertionError msg)) /\
  (forall v t, v <> S754_nan -> t <> S754_nan ->
     _check_perf item v "MAX" t = Ok tt \/ _check_perf item v "MIN" t = Ok tt).
Proof.
  split; [|split].
  - intros op t. unfold _check_perf, float_le, float_ge, SFleb.
    assert (Ht : SFcompare t S754_nan = None) by (destruct t; reflexivity).
    rewrite Ht. cbn [SFcompare]. destruct (String.eqb op "MAX"); eexists; reflexivity.
  - intros op v. unfold _check_perf, float_le, float_ge, SFleb.
    assert (Hv : SFcompare v S754_nan = None) by (destruct v; reflexivity).
    rewrite Hv. cbn [SFcompare]. destruct (String.eqb op "MAX"); eexists; reflexivity.
  - intros v t Hv Ht. unfold _check_perf, float_le, float_ge.
    change (String.eqb "MAX" "MAX") with true. change (String.eqb "MIN" "MAX") with false.
    destruct (SFleb_total v t Hv Ht) as [H|H]; rewrite H; [left | right]; reflexivity.
Qed.

Lemma _check_perf_nan_and_totality_witness :
  _check_perf "boot_time" (float_literal "100.1") "MAX" (float_literal "100.0") = Ok tt \/
  _check_perf "boot_time" (float_literal "100.1") "MIN" (float_literal "100.0") = Ok tt.
Proof.
  apply (proj2 (proj2 (_check_perf_nan_and_totality "boot_time"))); vm_compute; discriminate.
Defined.

(** ** Performance threshold checker: the scan *)

Section Scan.

Variable sdk_path : string.
Variable fs : string -> result string.

(** X22: for a plain metric name, a threshold [_find_perf_item] returns
    has the operator MIN or MAX and a number that is not negative and not
    a NaN: zero, a positive number or infinity (the pattern has no place
    for a sign). *)
Theorem resolved_thresholds_are_well_formed (item path op : string) (x : spec_float) :
  plain_name item = true ->
  _find_perf_item fs item path = Ok (op, x) ->
  (op = "MIN" \/ op = "MAX") /\ nonnegative x = true /\ x <> S754_nan.
Proof.
  intros _ H.
  destruct (_find_perf_item_cases fs item path)
    as [(? & _ & H')|[(? & _ & _ & H')|[(? & ? & ? & ? & _ & _ & _ & H')|
        (data & op' & number & x' & _ & Hre & Hfloat & Hx & H')]]];
    rewrite H' in H; try discriminate.
  injection H as <- <-.
  split; [exact (proj1 (re_search_groups _ _ _ _ Hre))|].
  split; [exact (float_nonnegative _ _ Hfloat) | exact Hx].
Qed.

Lemma _find_perf_item_upper (item item' path : string) :
  upper item = upper item' ->
  _find_perf_item fs item path = _find_perf_item fs item' path.
Proof. intros H. unfold _find_perf_item. rewrite H. reflexivity. Qed.

(** X23: the metric name is looked up in uppercase: for two plain names
    that differ only in case, [_find_perf_item] gives the same record or
    the same exception for every file, and [check_performance] the same
    result. *)
Theorem metric_name_case_is_ignored (item item' : string) (value : spec_float) (target : string) :
  plain_name item = true -> plain_name item' = true ->
  upper item = upper item' ->
  (forall path, _find_perf_item fs item path = _find_perf_item fs item' path) /\
  check_performance sdk_path fs item value target
  = check_performance sdk_path fs item' value target.
Proof.
  intros _ _ H. split; [intros path; apply _find_perf_item_upper, H|].
  unfold check_performance. generalize (performance_files sdk_path target).
  intros files. induction files as [|file rest IH]; cbn [for_performance_files]; [reflexivity|].
  rewrite IH, (_find_perf_item_upper item item' file H).
  destruct (_find_perf_item fs item' file) as [[op x]|e] eqn:Hfind; [|reflexivity].
  pose proof (_find_perf_item_not_nan fs item' file op x Hfind) as Hx.
  rewrite !(_check_perf_self _ op x Hx). reflexivity.
Qed.

(** X24: for a plain metric name, a definition whose number [float]
    does not read (more than one dot, or dots only) in the target-specific
    file is not skipped: the [ValueError] of [float] comes out of
    [check_performance], and the generic file is not opened. *)
Theorem malformed_number_is_a_value_error
    (item : string) (value : spec_float) (target data op number : string) :
  plain_name item = true ->
  fs (target_performance_file sdk_path target) = Ok data ->
  re_search (upper item) data = Some (op, number) ->
  2 <= string_count is_dot number \/ string_count is_digit number = 0 ->
  check_performance sdk_path fs item value target
  = (Raise (ValueError ("could not convert string to float: " ++ repr_str number)),
     [target_performance_file sdk_path target]).
Proof.
  intros _ Hfs Hre Hbad. unfold check_performance, performance_files. cbn [for_performance_files].
  assert (Hfind : _find_perf_item fs item (target_performance_file sdk_path target)
                  = Raise (ValueError ("could not convert string to float: " ++ repr_str number))).
  { unfold _find_perf_item. rewrite Hfs, bind_Ok, Hre, (float_rejects number Hbad). reflexivity. }
  rewrite Hfind. reflexivity.
Qed.

Lemma one_file_is_opened (item : string) (value : spec_float) (file : string) :
  snd (for_performance_files fs item value [file]) = [file].
Proof.
  cbn [for_performance_files].
  destruct (_find_perf_item fs item file) as [[op x]|[]]; reflexivity.
Qed.

(** X25: for a plain metric name, the generic file is opened exactly
    when the target-specific file is skipped: when reading it raises
    [IOError] (or [AttributeError], which the loop catches alike), or when
    it is read and has no definition of the metric.  In every other case,
    a definition found or another exception of the read such as
    [UnicodeDecodeError], the target-specific file is the only one
    opened. *)
Theorem generic_file_is_the_fallback (item : string) (value : spec_float) (target : string) :
  plain_name item = true ->
  (snd (check_performance sdk_path fs item value target) = performance_files sdk_path target <->
   fs (target_performance_file sdk_path target) = Raise IOError \/
   fs (target_performance_file sdk_path target) = Raise AttributeError \/
   exists data, fs (target_performance_file sdk_path target) = Ok data /\
                re_search (upper item) data = None) /\
  (snd (check_performance sdk_path fs item value target) = performance_files sdk_path target \/
   snd (check_performance sdk_path fs item value target) = [target_performance_file sdk_path target]).
Proof.
  intros _. unfold check_performance, performance_files.
  pose proof (one_file_is_opened item value (generic_performance_file sdk_path)) as Hone.
  cbn [for_performance_files] in *.
  destruct (_find_perf_item_cases fs item (target_performance_file sdk_path target))
    as [(e & Hfs & H')|[(data & Hfs & Hre & H')|[(data & op & number & msg & Hfs & Hre & _ & H')|
        (data & op & number & x & Hfs & Hre & _ & _ & H')]]]; rewrite H'.
  - destruct e.
    1-3, 6-7: (cbn [snd]; split; [|right; reflexivity]; split; [discriminate|];
               intros [Hio | [Hattr | (data' & Hsome & _)]]; congruence).
    + destruct (match _find_perf_item fs item (generic_performance_file sdk_path) with
                | Ok (op, found) => _ | Raise e => _ end) as [outcome opened].
      cbn [snd] in *. rewrite Hone. split; [|left; reflexivity].
      split; [intros _; left; exact Hfs | reflexivity].
    + destruct (match _find_perf_item fs item (generic_performance_file sdk_path) with
                | Ok (op, found) => _ | Raise e => _ end) as [outcome opened].
      cbn [snd] in *. rewrite Hone. split; [|left; reflexivity].
      split; [intros _; right; left; exact Hfs | reflexivity].
  - destruct (match _find_perf_item fs item (generic_performance_file sdk_path) with
              | Ok (op, found) => _ | Raise e => _ end) as [outcome opened].
    cbn [snd] in *. rewrite Hone. split; [|left; reflexivity].
    split; [intros _; right; right; exists data; split; assumption | reflexivity].
  - cbn [snd]. split; [|right; reflexivity]. split; [discriminate|].
    intros [Hio | [Hattr | (data' & Hsome & Hnone)]]; [congruence | congruence |].
    rewrite Hfs in Hsome. injection Hsome as <-. congruence.
  - cbn [snd]. split; [|right; reflexivity]. split; [discriminate|].
    intros [Hio | [Hattr | (data' & Hsome & Hnone)]]; [congruence | congruence |].
    rewrite Hfs in Hsome. injection Hsome as <-. congruence.
Qed.

Lemma for_performance_files_outcomes (files : list string) (item : string) (value : spec_float) :
  fst (for_performance_files fs item value files) = Ok tt \/
  (exists number,
      fst (for_performance_files fs item value files)
      = Raise (ValueError ("could not convert string to float: " ++ repr_str number))) \/
  (exists file e,
      In file files /\ fs file = Raise e /\ e <> IOError /\ e <> AttributeError /\
      fst (for_performance_files fs item value files) = Raise e).
Proof.
  induction files as [|file rest IH]; cbn [for_performance_files]; [left; reflexivity|].
  assert (Hrest : forall outcome_opened : result unit * list string,
             outcome_opened = for_performance_files fs item value rest ->
             fst (let '(outcome, opened) := outcome_opened in (outcome, file :: opened)) = Ok tt \/
             (exists number,
                 fst (let '(outcome, opened) := outcome_opened in (outcome, file :: opened))
                 = Raise (ValueError ("could not convert string to float: " ++ repr_str number))) \/
             (exists file' e,
                 In file' (file :: rest) /\ fs file' = Raise e /\ e <> IOError /\
                 e <> AttributeError /\
                 fst (let '(outcome, opened) := outcome_opened in (outcome, file :: opened))
                 = Raise e)).
  { intros [outcome opened] Heq. cbn [fst]. rewrite <- Heq in IH. cbn [fst] in IH.
    destruct IH as [IH | [IH | (file' & e & Hin & Hfs & H1 & H2 & IH)]];
      [left; exact IH | right; left; exact IH |].
    right; right. exists file', e. repeat split; try assumption. right. exact Hin. }
  destruct (_find_perf_item_cases fs item file)
    as [(e & Hfs & H')|[(data & Hfs & Hre & H')|[(data & op & number & msg & Hfs & Hre & Hfloat & H')|
        (data & op & number & x & Hfs & Hre & _ & Hx & H')]]]; rewrite H'.
  - destruct e; try (apply Hrest; reflexivity);
      (right; right; eexists file, _; cbn [fst];
       repeat split; [left; reflexivity | exact Hfs | discriminate | discriminate]).
  - apply Hrest. reflexivity.
  - right; left. exists number. cbn [fst]. unfold float in Hfloat.
    destruct (decimal number false 0 0 false) as [[n k]|]; [discriminate|].
    injection Hfloat as <-. reflexivity.
  - left. cbn [fst]. apply _check_perf_self, Hx.
Qed.

(** X26: for a plain metric name [check_performance] has three
    outcomes: it returns normally; or it raises the [ValueError] of
    [float] for a captured number; or it raises what reading one of the
    two files raised, when that is neither [IOError] nor [AttributeError]
    (a [UnicodeDecodeError], say).  It raises no error of its own: no
    [IOError] of a missing file, no [AttributeError] of a missing
    definition, and (see C1) no [AssertionError]. *)
Theorem check_performance_outcomes
    (item : string) (value : spec_float) (target : string) :
  plain_name item = true ->
  fst (check_performance sdk_path fs item value target) = Ok tt \/
  (exists number,
      fst (check_performance sdk_path fs item value target)
      = Raise (ValueError ("could not convert string to float: " ++ repr_str number))) \/
  (exists file e,
      In file (performance_files sdk_path target) /\ fs file = Raise e /\
      e <> IOError /\ e <> AttributeError /\
      fst (check_performance sdk_path fs item value target) = Raise e).
Proof. intros _. apply for_performance_files_outcomes. Qed.

End Scan.

Lemma resolved_thresholds_are_well_formed_witness :
  ("MAX" = "MIN" \/ "MAX" = "MAX") /\ nonnegative (float_literal "100.0") = true /\
  float_literal "100.0" <> S754_nan.
Proof.
  apply (resolved_thresholds_are_well_formed generic_only "boot_time"
           "/opt/esp-idf/components/idf_test/include/idf_performance.h");
    [reflexivity|].
  vm_compute. reflexivity.
Defined.

Lemma metric_name_case_is_ignored_witness :
  (forall path, _find_perf_item generic_only "boot_time" path
                = _find_perf_item generic_only "Boot_Time" path) /\
  check_performance idf_path generic_only "boot_time" (float_literal "100.1") "ESP32"
  = check_performance idf_path generic_only "Boot_Time" (float_literal "100.1") "ESP32".
Proof. apply metric_name_case_is_ignored; reflexivity. Defined.

Lemma malformed_number_is_a_value_error_witness :
  check_performance idf_path generic_and_broken_esp32 "boot_time" (float_literal "50.0") "ESP32"
  = (Raise (ValueError ("could not convert string to float: " ++ repr_str "1.2.3")),
     [target_performance_file idf_path "ESP32"]).
Proof.
  apply (malformed_number_is_a_value_error idf_path generic_and_broken_esp32 "boot_time"
           (float_literal "50.0") "ESP32" broken_esp32_header "MAX" "1.2.3").
  - reflexivity.
  - vm_compute. reflexivity.
  - vm_compute. reflexivity.
  - left. vm_compute. lia.
Defined.

Lemma generic_file_is_the_fallback_witness :
  snd (check_performance idf_path generic_and_undecodable_esp32 "boot_time"
         (float_literal "50.0") "ESP32")
  = [target_performance_file idf_path "ESP32"] /\
  snd (check_performance idf_path generic_only "boot_time" (float_literal "50.0") "ESP32")
  = performance_files idf_path "ESP32".
Proof.
  split.
  - destruct (proj2 (generic_file_is_the_fallback idf_path generic_and_undecodable_esp32
                       "boot_time" (float_literal "50.0") "ESP32" eq_refl)) as [H|H].
    + vm_compute in H. discriminate H.
    + exact H.
  - apply (proj1 (generic_file_is_the_fallback idf_path generic_only
                    "boot_time" (float_literal "50.0") "ESP32" eq_refl)).
    left. vm_compute. reflexivity.
Defined.

Lemma check_performance_outcomes_witness :
  exists file e,
    In file (performance_files idf_path "ESP32") /\
    generic_and_undecodable_esp32 file = Raise e /\ e <> IOError /\ e <> AttributeError /\
    fst (check_performance idf_path generic_and_undecodable_esp32 "boot_time"
           (float_literal "50.0") "ESP32") = Raise e.
Proof.
  destruct (check_performance_outcomes idf_path generic_and_undecodable_esp32 "boot_time"
              (float_literal "50.0") "ESP32" eq_refl) as [H | [(number & H) | H]].
  - vm_compute in H. discriminate H.
  - vm_compute in H. discriminate H.
  - exact H.
Defined.
